(** * gorush: validation, connection registry, queueing and dispatch

    A shallow embedding of the [gorush] package's notification pipeline
    ([CheckMessage], [initAPNSClient], [GetAPNSClient], [queueNotification],
    [GetIOSNotification], [PushToIOS], [GetAndroidNotification],
    [PushToAndroid]) together with the properties its specification states.

    Go values are modelled as follows.
    - [int], [int64] and [uint] are [Z]; [len] is [Z.of_nat] of the length.
    - [string] is [string]; a slice is a [list]; a map is a [gmap], and a
      nil map (readable, not writable) is [None] of an optional map.
    - a pointer that may be nil is an [option].
    - package-level variables (registry, queue, counters, loggers) are the
      fields of one [World] record threaded through a state monad, whose
      outcome is either a returned value or a run-time panic.

    Names are the source's. Where two Go structs share a field name the
    second one is qualified: [AlertTitleField] is [Alert.Title],
    [AlertField] is [PushNotification.Alert], [IosEnabled] and
    [AndroidEnabled] are the two [Enabled] flags, [AndroidAPIKey] is the
    configured [APIKey], and the fields of the client libraries' types
    carry a prefix ([gcmBody], [mNotification], [nPayload], ...). *)

From Stdlib Require Import ZArith Bool List Ascii String.
From stdpp Require Import base option strings list gmap pretty.

Local Open Scope string_scope.
Local Open Scope Z_scope.

(** ** Go primitives *)

Definition len {A : Type} (l : list A) : Z := Z.of_nat (length l).

Definition slen (s : string) : Z := Z.of_nat (String.length s).

Definition error : Type := option string.

Definition errors_New (msg : string) : error := Some msg.

(** [map[string]interface{}] values, as decoded from JSON. *)
#[warnings="-register-all"]
Inductive Value : Type :=
| VNull
| VBool (b : bool)
| VNum (n : Z)
| VStr (s : string)
| VList (l : list Value).

(** [D], the custom key/value data of a request. *)
Abbreviation D := (gmap string Value).

(** ** Constants declared outside the two source files *)

(** Modelled from the spec: the platform enum, [1 = iOS]; the constant
    [PlatFormIos] is used by the source and declared elsewhere. *)
Definition PlatFormIos : Z := 1.

(** Modelled from the spec: the platform enum, [2 = Android]; the constant
    [PlatFormAndroid] is used by the source and declared elsewhere. *)
Definition PlatFormAndroid : Z := 2.

Definition AppNameDefault : string := "default".

Definition AppNameDynamic : string := "__dynamic_app".

(** Modelled from the spec: the outcome tag of a delivery log record
    (succeeded / failed); [SucceededPush] and [FailedPush] are used by the
    source and declared elsewhere. *)
Inductive PushStatus : Type := SucceededPush | FailedPush.

(** ** Request records *)

Record Alert : Type := mkAlert {
  Action : string;
  ActionLocKey : string;
  Body : string;
  LaunchImage : string;
  LocArgs : list string;
  LocKey : string;
  AlertTitleField : string;
  TitleLocArgs : list string;
  TitleLocKey : string
}.

(** Modelled from the spec: the Android notification sub-object (title,
    body, sound); the type [gcm.Notification] belongs to the client
    library, the source reads and writes these three fields. *)
Record gcm_Notification : Type := mkGcmNotification {
  gcmTitle : string;
  gcmBody : string;
  gcmSound : string
}.

Record PushNotification : Type := mkPushNotification {
  (* Common *)
  Tokens : list string;
  Platform : Z;
  Message : string;
  Title : string;
  Priority : string;
  ContentAvailable : bool;
  Sound : string;
  Data : D;
  AppID : string;
  (* Android *)
  APIKey : string;
  To : string;
  CollapseKey : string;
  DelayWhileIdle : bool;
  TimeToLive : option Z;
  RestrictedPackageName : string;
  DryRun : bool;
  Notification : gcm_Notification;
  (* iOS *)
  Expiration : Z;
  ApnsID : string;
  Topic : string;
  Badge : Z;
  Category : string;
  URLArgs : list string;
  AlertField : Alert
}.

Record RequestPush : Type := mkRequestPush {
  Notifications : list PushNotification
}.

(** [uint] on the 64-bit targets the service is built for. *)
Definition uint_range (v : Z) : Prop := 0 <= v < 2 ^ 64.

Definition wf_TimeToLive (req : PushNotification) : Prop :=
  match TimeToLive req with
  | Some v => uint_range v
  | None => True
  end.

(** ** Application configuration *)

(** Modelled from the spec: the per-application iOS sub-config (enabled
    flag, certificate path, certificate password, production/sandbox flag);
    the type is declared in the config package, the field names are the
    ones the source reads. *)
Record SectionIos : Type := mkSectionIos {
  IosEnabled : bool;
  KeyPath : string;
  Password : string;
  Production : bool
}.

(** Modelled from the spec: the per-application Android sub-config (enabled
    flag, API key); declared in the config package. *)
Record SectionAndroid : Type := mkSectionAndroid {
  AndroidEnabled : bool;
  AndroidAPIKey : string
}.

Record SectionApp : Type := mkSectionApp {
  Ios : SectionIos;
  Android : SectionAndroid
}.

(** The zero value a Go map read yields for an absent key. *)
Definition zeroSectionApp : SectionApp :=
  mkSectionApp (mkSectionIos false "" "" false) (mkSectionAndroid false "").

Record ConfYaml : Type := mkConfYaml {
  Apps : gmap string SectionApp
}.

(** [PushConf.Apps[id]]: a one-value map read. *)
Definition app (conf : ConfYaml) (id : string) : SectionApp :=
  default zeroSectionApp (Apps conf !! id).

(** ** The APNs client library, at its interface

    The wire-level client is an external collaborator. What the source
    relies on is kept: a certificate is decoded from a file, a client is
    bound to a certificate and to the production or the development host,
    and a payload is built by setter calls. *)

Inductive Host : Type := HostProduction | HostDevelopment.

(** A decoded [tls.Certificate]; the zero value has no material. *)
Record Certificate : Type := mkCertificate {
  certMaterial : string
}.

Definition zeroCertificate : Certificate := mkCertificate "".

Record Client : Type := mkClient {
  clientCertificate : Certificate;
  clientHost : Host
}.

Definition apns_NewClient (c : Certificate) : Client := mkClient c HostDevelopment.

Definition client_Production (c : Client) : Client :=
  mkClient (clientCertificate c) HostProduction.

Definition client_Development (c : Client) : Client :=
  mkClient (clientCertificate c) HostDevelopment.

(** The alert dictionary of a payload. *)
Record AlertDict : Type := mkAlertDict {
  adAction : string;
  adActionLocKey : string;
  adBody : string;
  adLaunchImage : string;
  adLocArgs : list string;
  adLocKey : string;
  adTitle : string;
  adTitleLocArgs : list string;
  adTitleLocKey : string
}.

Definition emptyAlertDict : AlertDict := mkAlertDict "" "" "" "" [] "" "" [] "".

(** The [alert] entry of a payload: absent, a plain string, or a
    dictionary. *)
Inductive PayloadAlert : Type :=
| AlertAbsent
| AlertString (s : string)
| AlertDictionary (d : AlertDict).

(** A payload: the [aps] entries, each absent until its setter is called,
    and the custom entries. Custom keys are kept apart from the [aps]
    entries. In the library a custom key named aps takes the place of
    the [aps] entries, and a setter called after it panics; the model
    does not cover that key, and what is stated of a payload built from
    data, or of a push that builds one, is stated for data without it. *)
Record Payload : Type := mkPayload {
  apsAlert : PayloadAlert;
  apsBadge : option Z;
  apsCategory : option string;
  apsContentAvailable : bool;
  apsURLArgs : option (list string);
  apsSound : option string;
  customData : D
}.

Definition NewPayload : Payload :=
  mkPayload AlertAbsent None None false None None ∅.

Definition payload_Alert (s : string) (p : Payload) : Payload :=
  mkPayload (AlertString s) (apsBadge p) (apsCategory p) (apsContentAvailable p)
            (apsURLArgs p) (apsSound p) (customData p).

Definition payload_Badge (b : Z) (p : Payload) : Payload :=
  mkPayload (apsAlert p) (Some b) (apsCategory p) (apsContentAvailable p)
            (apsURLArgs p) (apsSound p) (customData p).

Definition payload_Sound (s : string) (p : Payload) : Payload :=
  mkPayload (apsAlert p) (apsBadge p) (apsCategory p) (apsContentAvailable p)
            (apsURLArgs p) (Some s) (customData p).

Definition payload_ContentAvailable (p : Payload) : Payload :=
  mkPayload (apsAlert p) (apsBadge p) (apsCategory p) true
            (apsURLArgs p) (apsSound p) (customData p).

Definition payload_URLArgs (a : list string) (p : Payload) : Payload :=
  mkPayload (apsAlert p) (apsBadge p) (apsCategory p) (apsContentAvailable p)
            (Some a) (apsSound p) (customData p).

Definition payload_Category (c : string) (p : Payload) : Payload :=
  mkPayload (apsAlert p) (apsBadge p) (Some c) (apsContentAvailable p)
            (apsURLArgs p) (apsSound p) (customData p).

Definition payload_Custom (k : string) (v : Value) (p : Payload) : Payload :=
  mkPayload (apsAlert p) (apsBadge p) (apsCategory p) (apsContentAvailable p)
            (apsURLArgs p) (apsSound p) (<[k := v]> (customData p)).

(** The dictionary a dictionary setter works on: the current one, or a
    fresh one replacing an absent or plain-string alert. *)
Definition alertDict (p : Payload) : AlertDict :=
  match apsAlert p with
  | AlertDictionary d => d
  | _ => emptyAlertDict
  end.

Definition withAlertDict (f : AlertDict -> AlertDict) (p : Payload) : Payload :=
  mkPayload (AlertDictionary (f (alertDict p))) (apsBadge p) (apsCategory p)
            (apsContentAvailable p) (apsURLArgs p) (apsSound p) (customData p).

Definition payload_AlertTitle (s : string) : Payload -> Payload :=
  withAlertDict (fun d => mkAlertDict (adAction d) (adActionLocKey d) (adBody d)
    (adLaunchImage d) (adLocArgs d) (adLocKey d) s (adTitleLocArgs d) (adTitleLocKey d)).

Definition payload_AlertTitleLocKey (s : string) : Payload -> Payload :=
  withAlertDict (fun d => mkAlertDict (adAction d) (adActionLocKey d) (adBody d)
    (adLaunchImage d) (adLocArgs d) (adLocKey d) (adTitle d) (adTitleLocArgs d) s).

Definition payload_AlertLocArgs (a : list string) : Payload -> Payload :=
  withAlertDict (fun d => mkAlertDict (adAction d) (adActionLocKey d) (adBody d)
    (adLaunchImage d) a (adLocKey d) (adTitle d) (adTitleLocArgs d) (adTitleLocKey d)).

Definition payload_AlertTitleLocArgs (a : list string) : Payload -> Payload :=
  withAlertDict (fun d => mkAlertDict (adAction d) (adActionLocKey d) (adBody d)
    (adLaunchImage d) (adLocArgs d) (adLocKey d) (adTitle d) a (adTitleLocKey d)).

Definition payload_AlertBody (s : string) : Payload -> Payload :=
  withAlertDict (fun d => mkAlertDict (adAction d) (adActionLocKey d) s
    (adLaunchImage d) (adLocArgs d) (adLocKey d) (adTitle d) (adTitleLocArgs d) (adTitleLocKey d)).

Definition payload_AlertLaunchImage (s : string) : Payload -> Payload :=
  withAlertDict (fun d => mkAlertDict (adAction d) (adActionLocKey d) (adBody d)
    s (adLocArgs d) (adLocKey d) (adTitle d) (adTitleLocArgs d) (adTitleLocKey d)).

Definition payload_AlertLocKey (s : string) : Payload -> Payload :=
  withAlertDict (fun d => mkAlertDict (adAction d) (adActionLocKey d) (adBody d)
    (adLaunchImage d) (adLocArgs d) s (adTitle d) (adTitleLocArgs d) (adTitleLocKey d)).

Definition payload_AlertAction (s : string) : Payload -> Payload :=
  withAlertDict (fun d => mkAlertDict s (adActionLocKey d) (adBody d)
    (adLaunchImage d) (adLocArgs d) (adLocKey d) (adTitle d) (adTitleLocArgs d) (adTitleLocKey d)).

Definition payload_AlertActionLocKey (s : string) : Payload -> Payload :=
  withAlertDict (fun d => mkAlertDict (adAction d) s (adBody d)
    (adLaunchImage d) (adLocArgs d) (adLocKey d) (adTitle d) (adTitleLocArgs d) (adTitleLocKey d)).

Definition apns_PriorityLow : Z := 5.

(** [apns.Notification]; [nExpiration] is [None] for the zero time. *)
Record apns_Notification : Type := mkApnsNotification {
  nApnsID : string;
  nDeviceToken : string;
  nTopic : string;
  nExpiration : option Z;
  nPriority : Z;
  nPayload : option Payload
}.

Definition setExpiration (e : Z) (n : apns_Notification) : apns_Notification :=
  mkApnsNotification (nApnsID n) (nDeviceToken n) (nTopic n) (Some e) (nPriority n) (nPayload n).

Definition setPriority (p : Z) (n : apns_Notification) : apns_Notification :=
  mkApnsNotification (nApnsID n) (nDeviceToken n) (nTopic n) (nExpiration n) p (nPayload n).

Definition setPayload (p : Payload) (n : apns_Notification) : apns_Notification :=
  mkApnsNotification (nApnsID n) (nDeviceToken n) (nTopic n) (nExpiration n) (nPriority n) (Some p).

Definition setDeviceToken (t : string) (n : apns_Notification) : apns_Notification :=
  mkApnsNotification (nApnsID n) t (nTopic n) (nExpiration n) (nPriority n) (nPayload n).

Record apns_Response : Type := mkApnsResponse {
  StatusCode : Z;
  Reason : string
}.

Definition response_Sent (r : apns_Response) : bool := StatusCode r =? 200.

(** What one call of [Client.Push] yields: an error, or a response. *)
Inductive PushResult : Type :=
| PushError (e : string)
| PushResponse (r : apns_Response).

(** ** The GCM client library, at its interface *)

Record gcm_HttpMessage : Type := mkHttpMessage {
  mTo : string;
  mRegistrationIds : list string;
  mCollapseKey : string;
  mPriority : string;
  mContentAvailable : bool;
  mDelayWhileIdle : bool;
  mTimeToLive : option Z;
  mRestrictedPackageName : string;
  mDryRun : bool;
  mData : option D;
  mNotification : option gcm_Notification
}.

Record gcm_Result : Type := mkGcmResult {
  MessageId : string;
  RegistrationId : string;
  ResultError : string
}.

Record gcm_HttpResponse : Type := mkHttpResponse {
  Success : Z;
  Failure : Z;
  Results : list gcm_Result
}.

(** What one call of [gcm.SendHttp] yields: an error, or a response. *)
Inductive SendResult : Type :=
| SendError (e : string)
| SendResponse (r : gcm_HttpResponse).

(** ** [filepath.Ext]

    The suffix of the path that starts at the last dot of its last
    element, empty when that element has no dot. *)

Fixpoint has_separator (s : string) : bool :=
  match s with
  | EmptyString => false
  | String c rest => if Ascii.eqb c "/"%char then true else has_separator rest
  end.

Fixpoint filepath_Ext (path : string) : string :=
  match path with
  | EmptyString => ""
  | String c rest =>
      match filepath_Ext rest with
      | EmptyString =>
          if has_separator rest then ""
          else if Ascii.eqb c "."%char then path else ""
      | e => e
      end
  end.

(** ** Process state *)

(** Modelled from the spec: the outcome counters (iOS success, iOS failure,
    Android success, Android failure, total accepted); [StatStorage] is
    used by the source and implemented elsewhere. *)
Record Stat : Type := mkStat {
  TotalCount : Z;
  IosSuccess : Z;
  IosError : Z;
  AndroidSuccess : Z;
  AndroidError : Z
}.

(** Modelled from the spec: the structured log record of a delivery
    attempt (outcome tag, destination token, originating notification,
    error detail); [LogPush] is called by the source and implemented
    elsewhere. *)
Record PushLog : Type := mkPushLog {
  logStatus : PushStatus;
  logToken : string;
  logReq : PushNotification;
  logErr : error
}.

Record World : Type := mkWorld {
  (* apnsClients.clients; None is the nil map *)
  apnsClients : option (gmap string (option Client));
  CertificatePemIos : Certificate;
  (* the channel QueueNotification, oldest first *)
  QueueNotification : list PushNotification;
  StatStorage : Stat;
  (* records written by LogPush, LogError.Error, LogAccess.Debug *)
  pushLog : list PushLog;
  errorLog : list string;
  accessLog : list string;
  (* calls made to Client.Push and to gcm.SendHttp, oldest first *)
  apnsCalls : list (option Client * apns_Notification);
  gcmCalls : list (string * gcm_HttpMessage)
}.


(** A process whose registry map has been allocated and is still empty. *)
Definition readyWorld : World :=
  mkWorld (Some ∅) zeroCertificate [] (mkStat 0 0 0 0 0) [] [] [] [] [].

(** ** Outcomes and the state monad *)

Inductive Outcome (A : Type) : Type :=
| Returns (a : A)
| Panics (reason : string).

Arguments Returns {A} a.
Arguments Panics {A} reason.

Definition Go (A : Type) : Type := World -> Outcome A * World.

#[export] Instance go_ret : MRet Go :=
  fun A a w => (Returns a, w).

#[export] Instance go_bind : MBind Go :=
  fun A B k m w =>
    match m w with
    | (Returns a, w') => k a w'
    | (Panics r, w') => (Panics r, w')
    end.

Definition panic {A : Type} (reason : string) : Go A :=
  fun w => (Panics reason, w).

Definition modify (f : World -> World) : Go unit :=
  fun w => (Returns tt, f w).

Definition gets {A : Type} (f : World -> A) : Go A :=
  fun w => (Returns (f w), w).

(** The value a run returns, if it returns. *)
Definition result {A : Type} (r : Outcome A * World) : Outcome A := fst r.

(** The state a run ends in. *)
Definition final {A : Type} (r : Outcome A * World) : World := snd r.

(** *** Field updates *)

Definition set_apnsClients (m : option (gmap string (option Client))) (w : World) : World :=
  mkWorld m (CertificatePemIos w) (QueueNotification w) (StatStorage w)
          (pushLog w) (errorLog w) (accessLog w) (apnsCalls w) (gcmCalls w).

Definition set_CertificatePemIos (c : Certificate) (w : World) : World :=
  mkWorld (apnsClients w) c (QueueNotification w) (StatStorage w)
          (pushLog w) (errorLog w) (accessLog w) (apnsCalls w) (gcmCalls w).

Definition set_QueueNotification (q : list PushNotification) (w : World) : World :=
  mkWorld (apnsClients w) (CertificatePemIos w) q (StatStorage w)
          (pushLog w) (errorLog w) (accessLog w) (apnsCalls w) (gcmCalls w).

Definition set_StatStorage (s : Stat) (w : World) : World :=
  mkWorld (apnsClients w) (CertificatePemIos w) (QueueNotification w) s
          (pushLog w) (errorLog w) (accessLog w) (apnsCalls w) (gcmCalls w).

Definition set_pushLog (l : list PushLog) (w : World) : World :=
  mkWorld (apnsClients w) (CertificatePemIos w) (QueueNotification w) (StatStorage w)
          l (errorLog w) (accessLog w) (apnsCalls w) (gcmCalls w).

Definition set_errorLog (l : list string) (w : World) : World :=
  mkWorld (apnsClients w) (CertificatePemIos w) (QueueNotification w) (StatStorage w)
          (pushLog w) l (accessLog w) (apnsCalls w) (gcmCalls w).

Definition set_accessLog (l : list string) (w : World) : World :=
  mkWorld (apnsClients w) (CertificatePemIos w) (QueueNotification w) (StatStorage w)
          (pushLog w) (errorLog w) l (apnsCalls w) (gcmCalls w).

Definition set_apnsCalls (l : list (option Client * apns_Notification)) (w : World) : World :=
  mkWorld (apnsClients w) (CertificatePemIos w) (QueueNotification w) (StatStorage w)
          (pushLog w) (errorLog w) (accessLog w) l (gcmCalls w).

Definition set_gcmCalls (l : list (string * gcm_HttpMessage)) (w : World) : World :=
  mkWorld (apnsClients w) (CertificatePemIos w) (QueueNotification w) (StatStorage w)
          (pushLog w) (errorLog w) (accessLog w) (apnsCalls w) l.

(** *** Loggers, counters and the queue *)

Definition LogAccess_Debug (msg : string) : Go unit :=
  modify (fun w => set_accessLog (accessLog w ++ [msg]) w).

Definition LogError_Error (msg : string) : Go unit :=
  modify (fun w => set_errorLog (errorLog w ++ [msg]) w).

(** Modelled from the spec: [LogPush] emits one structured record per
    delivery attempt. *)
Definition LogPush (status : PushStatus) (token : string)
    (req : PushNotification) (err : error) : Go unit :=
  modify (fun w => set_pushLog (pushLog w ++ [mkPushLog status token req err]) w).

(** Modelled from the spec: the five counter increments. *)
Definition AddTotalCount (n : Z) : Go unit :=
  modify (fun w => let s := StatStorage w in
    set_StatStorage (mkStat (TotalCount s + n) (IosSuccess s) (IosError s)
                            (AndroidSuccess s) (AndroidError s)) w).

Definition AddIosSuccess (n : Z) : Go unit :=
  modify (fun w => let s := StatStorage w in
    set_StatStorage (mkStat (TotalCount s) (IosSuccess s + n) (IosError s)
                            (AndroidSuccess s) (AndroidError s)) w).

Definition AddIosError (n : Z) : Go unit :=
  modify (fun w => let s := StatStorage w in
    set_StatStorage (mkStat (TotalCount s) (IosSuccess s) (IosError s + n)
                            (AndroidSuccess s) (AndroidError s)) w).

Definition AddAndroidSuccess (n : Z) : Go unit :=
  modify (fun w => let s := StatStorage w in
    set_StatStorage (mkStat (TotalCount s) (IosSuccess s) (IosError s)
                            (AndroidSuccess s + n) (AndroidError s)) w).

Definition AddAndroidError (n : Z) : Go unit :=
  modify (fun w => let s := StatStorage w in
    set_StatStorage (mkStat (TotalCount s) (IosSuccess s) (IosError s)
                            (AndroidSuccess s) (AndroidError s + n)) w).

(** [QueueNotification <- notification]. The channel's capacity, and the
    blocking of a sender on a full channel, are not part of this model. *)
Definition enqueue (n : PushNotification) : Go unit :=
  modify (fun w => set_QueueNotification (QueueNotification w ++ [n]) w).

(** ** The program *)

Definition setAppID (id : string) (n : PushNotification) : PushNotification :=
  mkPushNotification (Tokens n) (Platform n) (Message n) (Title n) (Priority n)
    (ContentAvailable n) (Sound n) (Data n) id (APIKey n) (To n) (CollapseKey n)
    (DelayWhileIdle n) (TimeToLive n) (RestrictedPackageName n) (DryRun n)
    (Notification n) (Expiration n) (ApnsID n) (Topic n) (Badge n) (Category n)
    (URLArgs n) (AlertField n).

(** [CheckMessage]. In the third test [req.Tokens[0]] is read only when
    the list has [PlatFormIos = 1] element, so the read is in range. *)
Definition CheckMessage (req : PushNotification) : Go error :=
  if (Message req =? "")%string then
    let msg := "the message must not be empty" in
    LogAccess_Debug msg ;;
    mret (errors_New msg)
  else if len (Tokens req) =? 0 then
    let msg := "the message must specify at least one registration ID" in
    LogAccess_Debug msg ;;
    mret (errors_New msg)
  else if (len (Tokens req) =? PlatFormIos)
          && (slen (default "" (Tokens req !! 0%nat)) =? 0) then
    let msg := "the token must not be empty" in
    LogAccess_Debug msg ;;
    mret (errors_New msg)
  else if (Platform req =? PlatFormAndroid) && (1000 <? len (Tokens req)) then
    let msg := "the message may specify at most 1000 registration IDs" in
    LogAccess_Debug msg ;;
    mret (errors_New msg)
  else if (Platform req =? PlatFormAndroid)
          && match TimeToLive req with
             | Some ttl => (ttl <? 0) || (2419200 <? ttl)
             | None => false
             end then
    let msg := "the message's TimeToLive field must be an integer " ++
               "between 0 and 2419200 (4 weeks)" in
    LogAccess_Debug msg ;;
    mret (errors_New msg)
  else
    mret None.

Definition iosAlertDictionary (payload : Payload) (req : PushNotification) : Payload :=
  let payload :=
    if 0 <? slen (Title req) then payload_AlertTitle (Title req) payload else payload in
  let payload :=
    if 0 <? slen (TitleLocKey (AlertField req))
    then payload_AlertTitleLocKey (TitleLocKey (AlertField req)) payload else payload in
  let payload :=
    if 0 <? len (LocArgs (AlertField req))
    then payload_AlertLocArgs (LocArgs (AlertField req)) payload else payload in
  let payload :=
    if 0 <? len (TitleLocArgs (AlertField req))
    then payload_AlertTitleLocArgs (TitleLocArgs (AlertField req)) payload else payload in
  let payload :=
    if 0 <? slen (Body (AlertField req))
    then payload_AlertBody (Body (AlertField req)) payload else payload in
  let payload :=
    if 0 <? slen (LaunchImage (AlertField req))
    then payload_AlertLaunchImage (LaunchImage (AlertField req)) payload else payload in
  let payload :=
    if 0 <? slen (LocKey (AlertField req))
    then payload_AlertLocKey (LocKey (AlertField req)) payload else payload in
  let payload :=
    if 0 <? slen (Action (AlertField req))
    then payload_AlertAction (Action (AlertField req)) payload else payload in
  let payload :=
    if 0 <? slen (ActionLocKey (AlertField req))
    then payload_AlertActionLocKey (ActionLocKey (AlertField req)) payload else payload in
  let payload :=
    if 0 <? slen (Category req) then payload_Category (Category req) payload else payload in
  payload.

Definition GetIOSNotification (req : PushNotification) : apns_Notification :=
  let notification := mkApnsNotification (ApnsID req) "" (Topic req) None 0 None in
  let notification :=
    if 0 <? Expiration req then setExpiration (Expiration req) notification
    else notification in
  let notification :=
    if (0 <? slen (Priority req)) && (Priority req =? "normal")%string
    then setPriority apns_PriorityLow notification else notification in
  let payload := payload_Alert (Message req) NewPayload in
  let payload := if 0 <? Badge req then payload_Badge (Badge req) payload else payload in
  let payload :=
    if 0 <? slen (Sound req) then payload_Sound (Sound req) payload else payload in
  let payload :=
    if ContentAvailable req then payload_ContentAvailable payload else payload in
  let payload :=
    if 0 <? len (URLArgs req) then payload_URLArgs (URLArgs req) payload else payload in
  let payload := map_fold payload_Custom payload (Data req) in
  let payload := iosAlertDictionary payload req in
  setPayload payload notification.

Definition GetAndroidNotification (req : PushNotification) : gcm_HttpMessage :=
  let RegistrationIds := Tokens req in
  let priority :=
    if (0 <? slen (Priority req)) && (Priority req =? "high")%string then "high" else "" in
  let data :=
    if 0 <? Z.of_nat (size (Data req))
    then Some (map_fold (fun k v (m : D) => <[k := v]> m) ∅ (Data req))
    else None in
  let sub := Notification req in
  let sub :=
    if slen (gcmBody sub) =? 0
    then mkGcmNotification (gcmTitle sub) (Message req) (gcmSound sub) else sub in
  let sub :=
    if 0 <? slen (Title req)
    then mkGcmNotification (Title req) (gcmBody sub) (gcmSound sub) else sub in
  let sub :=
    if 0 <? slen (Sound req)
    then mkGcmNotification (gcmTitle sub) (gcmBody sub) (Sound req) else sub in
  mkHttpMessage (To req) RegistrationIds (CollapseKey req) priority
    (ContentAvailable req) (DelayWhileIdle req) (TimeToLive req)
    (RestrictedPackageName req) (DryRun req) data (Some sub).

(** The process environment: the configuration and the external
    collaborators the program calls. *)
Class Environment : Type := mkEnvironment {
  (** The configuration, read-only once the process serves. *)
  PushConf : ConfYaml;
  (** The certificate decoders: what reading and decoding the file at a
      path with a password yields, a certificate and an error. *)
  FromP12File : string -> string -> Certificate * error;
  FromPemFile : string -> string -> Certificate * error;
  (** The two delivery networks: the answer to a call, given the calls
      made before it. *)
  apnsNetwork :
    list (option Client * apns_Notification) ->
    option Client -> apns_Notification -> PushResult;
  gcmNetwork :
    list (string * gcm_HttpMessage) -> string -> gcm_HttpMessage -> SendResult
}.

Section Program.

Context {env : Environment}.

(** [apnsClient.Push(notification)]. The method reads the fields of its
    receiver before it makes the request, so on a nil client it panics
    with a nil-pointer dereference and no request is made. *)
Definition client_Push (client : option Client) (n : apns_Notification) : Go PushResult :=
  fun w =>
    match client with
    | Some _ =>
        (Returns (apnsNetwork (apnsCalls w) client n),
         set_apnsCalls (apnsCalls w ++ [(client, n)]) w)
    | None => (Panics "invalid memory address or nil pointer dereference", w)
    end.

(** [gcm.SendHttp(apiKey, notification)] *)
Definition gcm_SendHttp (apiKey : string) (m : gcm_HttpMessage) : Go SendResult :=
  fun w =>
    (Returns (gcmNetwork (gcmCalls w) apiKey m),
     set_gcmCalls (gcmCalls w ++ [(apiKey, m)]) w).

Definition initAPNSClient (AppID : string) : Go (option Client * error) :=
  let ios := Ios (app PushConf AppID) in
  if IosEnabled ios then
    let ext := filepath_Ext (KeyPath ios) in
    err ←
      (if (ext =? ".p12")%string then
         let '(cert, err) := FromP12File (KeyPath ios) (Password ios) in
         modify (set_CertificatePemIos cert) ;;
         mret err
       else if (ext =? ".pem")%string then
         let '(cert, err) := FromPemFile (KeyPath ios) (Password ios) in
         modify (set_CertificatePemIos cert) ;;
         mret err
       else
         mret (errors_New "Wrong Certificate key extension."));
    match err with
    | Some e =>
        LogError_Error ("Cert Error:" ++ e) ;;
        mret (None, err)
    | None =>
        cert ← gets CertificatePemIos;
        if Production ios
        then mret (Some (client_Production (apns_NewClient cert)), err)
        else mret (Some (client_Development (apns_NewClient cert)), err)
    end
  else
    mret (None, None).

(** [client, present = apnsClients.clients[AppID]]: [None] when the key
    is absent (also in the nil map), [Some client] when present, where
    the stored client may itself be nil. *)
Definition lookupClient (AppID : string) : Go (option (option Client)) :=
  gets (fun w => match apnsClients w with
                 | Some m => m !! AppID
                 | None => None
                 end).

(** [apnsClients.clients[AppID] = client]: a write to the nil map
    panics. *)
Definition storeClient (AppID : string) (client : option Client) : Go unit :=
  fun w =>
    match apnsClients w with
    | Some m => (Returns tt, set_apnsClients (Some (<[AppID := client]> m)) w)
    | None => (Panics "assignment to entry in nil map", w)
    end.

(** [GetAPNSClient]; the locks are not part of this sequential model,
    both presence tests are. *)
Definition GetAPNSClient (AppID : string) : Go (option Client * error) :=
  found ← lookupClient AppID;
  match found with
  | None =>
      found ← lookupClient AppID;
      match found with
      | None =>
          '(client, err) ← initAPNSClient AppID;
          storeClient AppID client ;;
          mret (client, err)
      | Some client => mret (client, None)
      end
  | Some client => mret (client, None)
  end.

(** The loop of [queueNotification], [count] being the running total. *)
Fixpoint queueLoop (notifications : list PushNotification) (count : Z) : Go Z :=
  match notifications with
  | [] => mret count
  | notification :: rest =>
      let notification :=
        if (AppID notification =? "")%string
        then setAppID AppNameDefault notification else notification in
      match Apps PushConf !! AppID notification with
      | None =>
          LogError_Error ("Unknown app: " ++ AppID notification) ;;
          queueLoop rest count
      | Some _ =>
          let send :=
            enqueue notification ;;
            queueLoop rest (count + len (Tokens notification)) in
          if Platform notification =? PlatFormIos then
            if negb (IosEnabled (Ios (app PushConf (AppID notification))))
            then queueLoop rest count else send
          else if Platform notification =? PlatFormAndroid then
            if negb (AndroidEnabled (Android (app PushConf (AppID notification))))
            then queueLoop rest count else send
          else send
      end
  end.

Definition queueNotification (req : RequestPush) : Go Z :=
  count ← queueLoop (Notifications req) 0;
  AddTotalCount count ;;
  mret count.

(** The token loop of [PushToIOS]. *)
Fixpoint pushTokens (apnsClient : option Client) (req : PushNotification)
    (notification : apns_Notification) (tokens : list string)
    (isError : bool) : Go bool :=
  match tokens with
  | [] => mret isError
  | token :: rest =>
      let notification := setDeviceToken token notification in
      res ← client_Push apnsClient notification;
      match res with
      | PushError e =>
          LogPush FailedPush token req (Some e) ;;
          AddIosError 1 ;;
          pushTokens apnsClient req notification rest true
      | PushResponse res =>
          if negb (StatusCode res =? 200) then
            LogPush FailedPush token req (errors_New (Reason res)) ;;
            AddIosError 1 ;;
            pushTokens apnsClient req notification rest isError
          else
            (if response_Sent res then
               LogPush SucceededPush token req None ;;
               AddIosSuccess 1
             else mret tt) ;;
            pushTokens apnsClient req notification rest isError
      end
  end.

Definition PushToIOS (req : PushNotification) : Go bool :=
  LogAccess_Debug "Start push notification for iOS" ;;
  let notification := GetIOSNotification req in
  '(apnsClient, err) ← GetAPNSClient (AppID req);
  match err with
  | Some _ =>
      LogPush FailedPush "" req err ;;
      mret true
  | None => pushTokens apnsClient req notification (Tokens req) false
  end.

(** The result loop of [PushToAndroid]; [req.Tokens[k]] panics when [k]
    is out of range. *)
Fixpoint logResults (req : PushNotification) (k : nat)
    (results : list gcm_Result) : Go unit :=
  match results with
  | [] => mret tt
  | result :: rest =>
      match Tokens req !! k with
      | None => panic "index out of range"
      | Some token =>
          (if negb (ResultError result =? "")%string
           then LogPush FailedPush token req (errors_New (ResultError result))
           else LogPush SucceededPush token req None) ;;
          logResults req (S k) rest
      end
  end.

Definition PushToAndroid (req : PushNotification) : Go bool :=
  LogAccess_Debug "Start push notification for Android" ;;
  err ← CheckMessage req;
  match err with
  | Some e =>
      LogError_Error ("request error: " ++ e) ;;
      mret false
  | None =>
      let notification := GetAndroidNotification req in
      res ← gcm_SendHttp (APIKey req) notification;
      match res with
      | SendError e =>
          LogError_Error ("GCM server error: " ++ e) ;;
          mret false
      | SendResponse res =>
          LogAccess_Debug ("Android Success count: " ++ pretty (Success res)
                           ++ ", Failure count: " ++ pretty (Failure res)) ;;
          AddAndroidSuccess (Success res) ;;
          AddAndroidError (Failure res) ;;
          logResults req 0 (Results res) ;;
          mret true
      end
  end.

End Program.

(** ** Notions the properties are stated with *)

(** A time-to-live the validator lets through: absent, or within four
    weeks. *)
Definition ttlAcceptable (req : PushNotification) : Prop :=
  match TimeToLive req with
  | Some ttl => 0 <= ttl <= 2419200
  | None => True
  end.

(** The tests the validator makes on the token list before it looks at
    the time-to-live: the list is not empty, has at most 1000 tokens, and
    is not a single empty token. *)
Definition passesTokenTests (req : PushNotification) : Prop :=
  0 < len (Tokens req) <= 1000 ∧
  ¬ (len (Tokens req) = PlatFormIos ∧ Tokens req !! 0%nat = Some "").

(** The registry map is allocated and holds a client only for
    applications that have iOS enabled. *)
Definition registryConsistent (conf : ConfYaml) (w : World) : Prop :=
  ∃ m, apnsClients w = Some m ∧
       ∀ id c, m !! id = Some (Some c) → IosEnabled (Ios (app conf id)) = true.

(** A delivery attempt that failed, on either failure path of the token
    loop: an error of the call, or a status other than 200. *)
Definition deliveryFailed (r : PushResult) : bool :=
  match r with
  | PushError _ => true
  | PushResponse res => negb (StatusCode res =? 200)
  end.

(** A delivery attempt that failed by an error of the call itself. *)
Definition transportFailed (r : PushResult) : bool :=
  match r with
  | PushError _ => true
  | PushResponse _ => false
  end.

Section Answers.

Context {env : Environment}.

(** The answers of the APNs network to the calls the token loop makes,
    one per token, [calls] being the calls made before the loop. *)
Fixpoint pushAnswers (calls : list (option Client * apns_Notification))
    (client : option Client) (notification : apns_Notification)
    (tokens : list string) : list PushResult :=
  match tokens with
  | [] => []
  | token :: rest =>
      let n := setDeviceToken token notification in
      apnsNetwork calls client n :: pushAnswers (calls ++ [(client, n)]) client n rest
  end.

End Answers.

(** The notification as the queueing loop sees it, its application
    identity defaulted. *)
Definition resolved (n : PushNotification) : PushNotification :=
  if (AppID n =? "")%string then setAppID AppNameDefault n else n.

(** The test the queueing loop makes: the application is known, and it
    is not the case that the platform is iOS or Android with that
    platform disabled. *)
Definition admitted (conf : ConfYaml) (n : PushNotification) : bool :=
  match Apps conf !! AppID (resolved n) with
  | None => false
  | Some a =>
      if Platform n =? PlatFormIos then IosEnabled (Ios a)
      else if Platform n =? PlatFormAndroid then AndroidEnabled (Android a)
      else true
  end.

(** The specification's wording of who is queued: the (defaulted)
    application identity exists in the configuration and has the
    notification's platform enabled. *)
Definition eligible (conf : ConfYaml) (n : PushNotification) : bool :=
  match Apps conf !! AppID (resolved n) with
  | None => false
  | Some a =>
      if Platform n =? PlatFormIos then IosEnabled (Ios a)
      else if Platform n =? PlatFormAndroid then AndroidEnabled (Android a)
      else false
  end.

(** The sum of the token-list lengths of the notifications a test
    selects. *)
Definition tokenTotal (keep : PushNotification -> bool)
    (ns : list PushNotification) : Z :=
  foldr (fun n acc => len (Tokens n) + acc) 0 (filter (fun n => keep n = true) ns).

(** The specification's wording of what [queueNotification] does to the
    queue and to the accepted total, for one request in one state. *)
Definition queuesExactlyEligible {env : Environment}
    (req : RequestPush) (w : World) : Prop :=
  let r := queueNotification req w in
  let queued := filter (fun n => eligible PushConf n = true) (Notifications req) in
  QueueNotification (final r) = (QueueNotification w ++ map resolved queued)%list ∧
  TotalCount (StatStorage (final r)) =
    TotalCount (StatStorage w) + tokenTotal (eligible PushConf) (Notifications req).

Definition knownPlatform (n : PushNotification) : Prop :=
  Platform n = PlatFormIos ∨ Platform n = PlatFormAndroid.

(** A notification none of whose optional payload fields is set. *)
Definition messageOnly (req : PushNotification) : Prop :=
  Title req = "" ∧ Sound req = "" ∧ Category req = "" ∧ Badge req = 0 ∧
  ContentAvailable req = false ∧ URLArgs req = [] ∧ Data req = ∅ ∧
  AlertField req = mkAlert "" "" "" "" [] "" "" [] "".

(** ** Concrete inputs *)

Definition zeroNotification : PushNotification :=
  mkPushNotification [] 0 "" "" "" false "" ∅ "" "" "" "" false None "" false
    (mkGcmNotification "" "" "") 0 "" "" 0 "" [] (mkAlert "" "" "" "" [] "" "" [] "").

(** A request with the three required fields and an application. *)
Definition notice (tokens : list string) (platform : Z) (message appID : string)
    : PushNotification :=
  mkPushNotification tokens platform message "" "" false "" ∅ appID "" "" "" false
    None "" false (mkGcmNotification "" "" "") 0 "" "" 0 "" []
    (mkAlert "" "" "" "" [] "" "" [] "").

Definition withTimeToLive (ttl : Z) (n : PushNotification) : PushNotification :=
  mkPushNotification (Tokens n) (Platform n) (Message n) (Title n) (Priority n)
    (ContentAvailable n) (Sound n) (Data n) (AppID n) (APIKey n) (To n) (CollapseKey n)
    (DelayWhileIdle n) (Some ttl) (RestrictedPackageName n) (DryRun n)
    (Notification n) (Expiration n) (ApnsID n) (Topic n) (Badge n) (Category n)
    (URLArgs n) (AlertField n).

Definition withAndroidNotification (title body : string) (sub : gcm_Notification)
    (n : PushNotification) : PushNotification :=
  mkPushNotification (Tokens n) (Platform n) (Message n) title (Priority n)
    (ContentAvailable n) (Sound n) (Data n) (AppID n) (APIKey n) (To n) (CollapseKey n)
    (DelayWhileIdle n) (TimeToLive n) (RestrictedPackageName n) (DryRun n)
    sub (Expiration n) (ApnsID n) (Topic n) (Badge n) (Category n)
    (URLArgs n) (AlertField n).

Definition decodesTo (material : string) (path password : string) : Certificate * error :=
  (mkCertificate material, None).

Definition undecodable (path password : string) : Certificate * error :=
  (zeroCertificate, Some "open: no such file or directory").

Definition apnsAnswers (r : PushResult)
    (calls : list (option Client * apns_Notification))
    (client : option Client) (n : apns_Notification) : PushResult := r.

Definition gcmAnswers (r : SendResult)
    (calls : list (string * gcm_HttpMessage)) (apiKey : string)
    (m : gcm_HttpMessage) : SendResult := r.

(** One application, [default], with the given sub-configs. *)
Definition confDefault (ios : SectionIos) (android : SectionAndroid) : ConfYaml :=
  mkConfYaml (<["default" := mkSectionApp ios android]> ∅).

(** iOS enabled with a certificate in PEM format; the device rejects the
    notification with status 400. *)
Definition envRejecting : Environment :=
  mkEnvironment
    (confDefault (mkSectionIos true "certs/app.pem" "secret" false)
                 (mkSectionAndroid false ""))
    undecodable (decodesTo "PEM")
    (apnsAnswers (PushResponse (mkApnsResponse 400 "BadDeviceToken")))
    (gcmAnswers (SendError "unreachable")).

(** iOS enabled with a key path of an unknown extension. *)
Definition envBadKey : Environment :=
  mkEnvironment
    (confDefault (mkSectionIos true "certs/app.txt" "secret" false)
                 (mkSectionAndroid false ""))
    undecodable undecodable
    (apnsAnswers (PushError "unreachable"))
    (gcmAnswers (SendError "unreachable")).

(** Android enabled and iOS disabled; GCM answers with one success. *)
Definition envAndroid : Environment :=
  mkEnvironment
    (confDefault (mkSectionIos false "" "" false) (mkSectionAndroid true "key"))
    undecodable undecodable
    (apnsAnswers (PushError "unreachable"))
    (gcmAnswers (SendResponse (mkHttpResponse 0 1 [mkGcmResult "" "" "NotRegistered"]))).

(** Android enabled and iOS disabled; GCM is unreachable. *)
Definition envAndroidDown : Environment :=
  mkEnvironment
    (confDefault (mkSectionIos false "" "" false) (mkSectionAndroid true "key"))
    undecodable undecodable
    (apnsAnswers (PushError "unreachable"))
    (gcmAnswers (SendError "unreachable")).

(** Both platforms disabled for [default]. *)
Definition envDisabled : Environment :=
  mkEnvironment
    (confDefault (mkSectionIos false "" "" false) (mkSectionAndroid false ""))
    undecodable undecodable
    (apnsAnswers (PushError "unreachable"))
    (gcmAnswers (SendError "unreachable")).

(** ** The worker *)

Section Worker.

Context {env : Environment}.

(** The switch of [startWorker] on the platform of the notification it
    has received; what the dispatchers return is dropped. *)
Definition dispatch (notification : PushNotification) : Go unit :=
  if Platform notification =? PlatFormIos then
    PushToIOS notification ;;
    mret tt
  else if Platform notification =? PlatFormAndroid then
    PushToAndroid notification ;;
    mret tt
  else
    mret tt.

(** [notification := <-QueueNotification]: the oldest notification leaves
    the channel. On the empty channel the worker blocks; that is [None]
    here. *)
Definition receive : Go (option PushNotification) :=
  fun w =>
    match QueueNotification w with
    | [] => (Returns None, w)
    | notification :: rest => (Returns (Some notification), set_QueueNotification rest w)
    end.

(** The loop of [startWorker], for at most [rounds] receives; it ends
    where the worker would block. *)
Fixpoint startWorker (rounds : nat) : Go unit :=
  match rounds with
  | O => mret tt
  | S rounds =>
      received ← receive;
      match received with
      | None => mret tt
      | Some notification =>
          dispatch notification ;;
          startWorker rounds
      end
  end.

End Worker.

(** ** The command line *)

(** The flags [main] reads that reach the dynamic application and the
    notification it sends. *)
Record Flags : Type := mkFlags {
  token : string;
  message : string;
  topic : string;
  iosKeyPath : string;
  iosPassword : string;
  iosEnabled : bool;
  iosProduction : bool;
  androidAPIKey : string;
  androidEnabled : bool
}.

(** [checkInput]: the message [LogError.Fatal] ends the process with, or
    [None] when the function returns. *)
Definition checkInput (token message : string) : option string :=
  if slen token =? 0 then Some "Missing token flag (-t)"
  else if slen message =? 0 then Some "Missing message flag (-m)"
  else None.

Definition setIos (ios : SectionIos) (a : SectionApp) : SectionApp :=
  mkSectionApp ios (Android a).

Definition setAndroid (android : SectionAndroid) (a : SectionApp) : SectionApp :=
  mkSectionApp (Ios a) android.

(** [main], from the creation of the dynamic application to the last
    flag test: the configuration afterwards, and the local
    [dynamicAppConfig]. The map of applications, taken to be allocated,
    holds struct values, so the local is a copy of the entry, and the
    assignments to its fields stay local. *)
Definition dynamicApp (flags : Flags) (conf : ConfYaml) : ConfYaml * SectionApp :=
  let conf := mkConfYaml (<[AppNameDynamic := zeroSectionApp]> (Apps conf)) in
  let dynamicAppConfig := app conf AppNameDynamic in
  let dynamicAppConfig :=
    if negb (iosKeyPath flags =? "")%string
    then setIos (mkSectionIos (IosEnabled (Ios dynamicAppConfig)) (iosKeyPath flags)
                   (Password (Ios dynamicAppConfig)) (Production (Ios dynamicAppConfig)))
                dynamicAppConfig
    else dynamicAppConfig in
  let dynamicAppConfig :=
    if negb (iosPassword flags =? "")%string
    then setIos (mkSectionIos (IosEnabled (Ios dynamicAppConfig))
                   (KeyPath (Ios dynamicAppConfig)) (iosPassword flags)
                   (Production (Ios dynamicAppConfig)))
                dynamicAppConfig
    else dynamicAppConfig in
  let dynamicAppConfig :=
    if iosEnabled flags
    then setIos (mkSectionIos (iosEnabled flags) (KeyPath (Ios dynamicAppConfig))
                   (Password (Ios dynamicAppConfig)) (Production (Ios dynamicAppConfig)))
                dynamicAppConfig
    else dynamicAppConfig in
  let dynamicAppConfig :=
    if iosProduction flags
    then setIos (mkSectionIos (IosEnabled (Ios dynamicAppConfig))
                   (KeyPath (Ios dynamicAppConfig)) (Password (Ios dynamicAppConfig))
                   (iosProduction flags))
                dynamicAppConfig
    else dynamicAppConfig in
  let dynamicAppConfig :=
    if negb (androidAPIKey flags =? "")%string
    then setAndroid (mkSectionAndroid (AndroidEnabled (Android dynamicAppConfig))
                       (androidAPIKey flags))
                    dynamicAppConfig
    else dynamicAppConfig in
  let dynamicAppConfig :=
    if androidEnabled flags
    then setAndroid (mkSectionAndroid (androidEnabled flags)
                       (AndroidAPIKey (Android dynamicAppConfig)))
                    dynamicAppConfig
    else dynamicAppConfig in
  (conf, dynamicAppConfig).

(** The notification [main] sends when the dynamic application has
    Android enabled. *)
Definition cliAndroidRequest (flags : Flags) : PushNotification :=
  mkPushNotification [token flags] PlatFormAndroid (message flags) "" "" false "" ∅
    AppNameDynamic "" "" "" false None "" false (mkGcmNotification "" "" "")
    0 "" "" 0 "" [] (mkAlert "" "" "" "" [] "" "" [] "").

(** The notification [main] sends when the dynamic application has iOS
    enabled; the topic is assigned when the flag is not empty. *)
Definition cliIosRequest (flags : Flags) : PushNotification :=
  mkPushNotification [token flags] PlatFormIos (message flags) "" "" false "" ∅
    AppNameDynamic "" "" "" false None "" false (mkGcmNotification "" "" "")
    0 "" (if negb (topic flags =? "")%string then topic flags else "") 0 "" []
    (mkAlert "" "" "" "" [] "" "" [] "").

(** ** Further notions the properties are stated with *)

(** What the validator lets through. *)
Definition validRequest (req : PushNotification) : Prop :=
  Message req ≠ "" ∧ Tokens req ≠ [] ∧ Tokens req ≠ [""] ∧
  (Platform req = PlatFormAndroid → len (Tokens req) <= 1000 ∧ ttlAcceptable req).

(** The record the token loop of [PushToIOS] writes for a token and the
    network's answer to its call. *)
Definition tokenRecord (req : PushNotification) (token : string)
    (answer : PushResult) : PushLog :=
  match answer with
  | PushError e => mkPushLog FailedPush token req (Some e)
  | PushResponse res =>
      if negb (StatusCode res =? 200)
      then mkPushLog FailedPush token req (Some (Reason res))
      else mkPushLog SucceededPush token req None
  end.

(** The record the result loop of [PushToAndroid] writes for a token and
    the result at its position. *)
Definition resultRecord (req : PushNotification) (token : string)
    (result : gcm_Result) : PushLog :=
  if negb (ResultError result =? "")%string
  then mkPushLog FailedPush token req (Some (ResultError result))
  else mkPushLog SucceededPush token req None.

(** Some entry of the alert dictionary is set in the request. *)
Definition wantsAlertDictionary (req : PushNotification) : bool :=
  (0 <? slen (Title req))
  || (0 <? slen (TitleLocKey (AlertField req)))
  || (0 <? len (LocArgs (AlertField req)))
  || (0 <? len (TitleLocArgs (AlertField req)))
  || (0 <? slen (Body (AlertField req)))
  || (0 <? slen (LaunchImage (AlertField req)))
  || (0 <? slen (LocKey (AlertField req)))
  || (0 <? slen (Action (AlertField req)))
  || (0 <? slen (ActionLocKey (AlertField req))).

(** The alert dictionary a request asks for: its [alert] fields, with the
    top-level title. *)
Definition requestedAlert (req : PushNotification) : AlertDict :=
  mkAlertDict (Action (AlertField req)) (ActionLocKey (AlertField req))
    (Body (AlertField req)) (LaunchImage (AlertField req)) (LocArgs (AlertField req))
    (LocKey (AlertField req)) (Title req) (TitleLocArgs (AlertField req))
    (TitleLocKey (AlertField req)).

(** A GCM message within the limits of the delivery network: one to 1000
    registration IDs, a time-to-live of at most four weeks when present,
    and a notification with a body. *)
Definition withinGcmLimits (m : gcm_HttpMessage) : Prop :=
  0 < len (mRegistrationIds m) <= 1000 ∧
  match mTimeToLive m with Some ttl => 0 <= ttl <= 2419200 | None => True end ∧
  ∃ sub, mNotification m = Some sub ∧ gcmBody sub ≠ "".

(** The application of a notification, once defaulted, is configured. *)
Definition appKnown (conf : ConfYaml) (n : PushNotification) : bool :=
  match Apps conf !! AppID (resolved n) with
  | Some _ => true
  | None => false
  end.

(** The line the queueing loop writes to the error log for a
    notification whose application is not configured. *)
Definition unknownAppLine (n : PushNotification) : string :=
  "Unknown app: " ++ AppID (resolved n).

(** A notification as the queue may hold it: it names an application,
    the application is configured, and when the platform is iOS or
    Android the application has that platform enabled. *)
Definition queueable (conf : ConfYaml) (n : PushNotification) : Prop :=
  AppID n ≠ "" ∧
  ∃ a, Apps conf !! AppID n = Some a ∧
       (Platform n = PlatFormIos → IosEnabled (Ios a) = true) ∧
       (Platform n = PlatFormAndroid → AndroidEnabled (Android a) = true).

(** The number of tokens of a list of notifications. *)
Definition tokenCount (ns : list PushNotification) : Z :=
  foldr (fun n acc => len (Tokens n) + acc) 0 ns.

Section Decoder.

Context {env : Environment}.

(** The decoder construction uses for a key path that ends in .p12 or
    .pem. *)
Definition decoderFor (path : string) : string -> string -> Certificate * error :=
  if (filepath_Ext path =? ".p12")%string then FromP12File else FromPemFile.

End Decoder.

(** Flags for a push to one Android device from the command line. *)
Definition flagsAndroid : Flags :=
  mkFlags "device-1" "hello" "" "" "" false false "key" true.

(** Flags for a push to one iOS device from the command line. *)
Definition flagsIos : Flags :=
  mkFlags "device-1" "hello" "com.example.app" "certs/app.pem" "secret" true true "" false.

(** The environment of [envRejecting] with another configuration. *)
Definition withConf (conf : ConfYaml) (env : Environment) : Environment :=
  mkEnvironment conf (@FromP12File env) (@FromPemFile env)
    (@apnsNetwork env) (@gcmNetwork env).

(** iOS enabled with a certificate in PEM format; the network delivers. *)
Definition envDelivering : Environment :=
  mkEnvironment
    (confDefault (mkSectionIos true "certs/app.pem" "secret" true)
                 (mkSectionAndroid true "key"))
    undecodable (decodesTo "PEM")
    (apnsAnswers (PushResponse (mkApnsResponse 200 "")))
    (gcmAnswers (SendResponse (mkHttpResponse 1 1
       [mkGcmResult "m1" "" ""; mkGcmResult "" "" "NotRegistered"]))).

(** An iOS request with every optional payload field set. *)
Definition richNotice : PushNotification :=
  mkPushNotification ["device-1"] PlatFormIos "hello" "Greeting" "normal" true
    "ping.aiff" (<["campaign" := VStr "spring"]> ∅) "default" "" "" "" false None ""
    false (mkGcmNotification "" "" "") 1700000000 "id-1" "com.example.app" 3
    "MESSAGE" ["u1"] (mkAlert "" "" "Body text" "" [] "" "" [] "").

(** The environment [main] leaves behind for a push to one iOS device
    from the command line. *)
Definition envCommandLine : Environment :=
  withConf (fst (dynamicApp flagsIos (@PushConf envDelivering))) envDelivering.

(** * Properties *)

(** ** Lengths and the monad *)

Lemma slen_zero (s : string) : (slen s =? 0) = true ↔ s = "".
Proof. unfold slen. destruct s as [|c s]; simpl; split; done. Qed.

Lemma slen_pos (s : string) : (0 <? slen s) = true ↔ s ≠ "".
Proof. unfold slen. destruct s as [|c s]; simpl; split; done. Qed.

Lemma slen_pos_empty : (0 <? slen "") = false.
Proof. reflexivity. Qed.

Ltac go_step :=
  unfold result, final, mbind, go_bind, mret, go_ret, modify, gets, panic,
    LogAccess_Debug, LogError_Error, LogPush, errors_New in *; simpl in *.

(** ** The validator *)

(** The verdict of the validator does not depend on the state it runs
    in. *)
Lemma CheckMessage_world (req : PushNotification) (w w' : World) :
  result (CheckMessage req w) = result (CheckMessage req w').
Proof. unfold CheckMessage. repeat case_match; reflexivity. Qed.

(** The validator writes to the access log only. *)
Lemma CheckMessage_frame (req : PushNotification) (w : World) :
  let w' := final (CheckMessage req w) in
  apnsClients w' = apnsClients w ∧ QueueNotification w' = QueueNotification w ∧
  StatStorage w' = StatStorage w ∧ pushLog w' = pushLog w ∧
  errorLog w' = errorLog w ∧ apnsCalls w' = apnsCalls w ∧ gcmCalls w' = gcmCalls w.
Proof. unfold CheckMessage. repeat case_match; go_step; done. Qed.

Lemma CheckMessage_returns (req : PushNotification) (w : World) :
  ∃ err, result (CheckMessage req w) = Returns err.
Proof. unfold CheckMessage. repeat case_match; go_step; eauto. Qed.

(** C3. For a notification with a non-empty message, [CheckMessage]
    returns the error "the token must not be empty" exactly when the
    number of tokens equals the iOS platform constant (1) and the first
    token is the empty string, whatever the platform field holds; so a
    token list of any other length is never rejected by this test. *)
Theorem CheckMessage_empty_token_test (req : PushNotification) (w : World) :
  Message req ≠ "" →
  (result (CheckMessage req w) = Returns (Some "the token must not be empty")
   ↔ len (Tokens req) = PlatFormIos ∧ Tokens req !! 0%nat = Some "")
  ∧ (len (Tokens req) ≠ 1 →
     result (CheckMessage req w) ≠ Returns (Some "the token must not be empty")).
Proof.
  intros Hmsg. apply String.eqb_neq in Hmsg.
  assert (Hiff : result (CheckMessage req w) = Returns (Some "the token must not be empty")
                 ↔ len (Tokens req) = PlatFormIos ∧ Tokens req !! 0%nat = Some "").
  { unfold CheckMessage. rewrite Hmsg.
    destruct (len (Tokens req) =? 0) eqn:Hlen0.
    { go_step. apply Z.eqb_eq in Hlen0. unfold PlatFormIos. split; [done | lia]. }
    destruct (len (Tokens req) =? PlatFormIos) eqn:Hlen1; simpl.
    - apply Z.eqb_eq in Hlen1.
      destruct (Tokens req) as [|t ts] eqn:Htok; [done|]. simpl.
      destruct (slen t =? 0) eqn:Ht.
      + apply slen_zero in Ht. subst t. go_step. done.
      + assert (t ≠ "") by (intros ->; done).
        repeat case_match; go_step; split; try done; intros [_ ?]; congruence.
    - apply Z.eqb_neq in Hlen1.
      repeat case_match; go_step; split; try done; intros [? _]; congruence. }
  split; [exact Hiff|].
  intros Hne Hres. apply Hiff in Hres as [Hlen _]. unfold PlatFormIos in Hlen. lia.
Qed.

Lemma CheckMessage_empty_token_test_witness :
  result (CheckMessage (notice [""] PlatFormAndroid "hello" "default") readyWorld)
    = Returns (Some "the token must not be empty")
  ∧ result (CheckMessage (notice [""; "t"] PlatFormIos "hello" "default") readyWorld)
    ≠ Returns (Some "the token must not be empty").
Proof.
  split.
  - apply (CheckMessage_empty_token_test
             (notice [""] PlatFormAndroid "hello" "default") readyWorld);
      [discriminate | split; reflexivity].
  - apply (CheckMessage_empty_token_test
             (notice [""; "t"] PlatFormIos "hello" "default") readyWorld);
      [discriminate | vm_compute; discriminate].
Defined.

(** ** The Android dispatcher *)

Section AndroidDispatch.

Context {env : Environment}.

(** A notification the validator rejects is dropped before the network
    is called, and nothing is counted or logged per token. *)
Lemma PushToAndroid_invalid (req : PushNotification) (w : World) (e : string) :
  result (CheckMessage req w) = Returns (Some e) →
  let r := PushToAndroid req w in
  result r = Returns false ∧ gcmCalls (final r) = gcmCalls w ∧
  StatStorage (final r) = StatStorage w ∧ pushLog (final r) = pushLog w.
Proof.
  intros Hc. unfold PushToAndroid.
  set (w1 := set_accessLog (accessLog w ++ ["Start push notification for Android"]) w).
  rewrite (CheckMessage_world req w w1) in Hc.
  pose proof (CheckMessage_frame req w1) as Hf.
  unfold result, final, mbind, go_bind, LogAccess_Debug, modify in *. fold w1.
  destruct (CheckMessage req w1) as [o w2]. simpl in *. subst o.
  destruct Hf as (_ & _ & Hs & Hp & _ & _ & Hg). simpl. done.
Qed.

(** The result loop makes no network call. *)
Lemma logResults_frame (req : PushNotification) (results : list gcm_Result) :
  ∀ (k : nat) (w : World),
    gcmCalls (final (logResults req k results w)) = gcmCalls w.
Proof.
  induction results as [|res rest IH]; intros k w; simpl in *; [done|].
  destruct (Tokens req !! k) as [token|]; [|done].
  unfold mbind, go_bind.
  destruct (negb (ResultError res =? "")%string); go_step.
  all: match goal with
       | |- context [logResults _ (S _) _ ?w'] => pose proof (IH (S k) w') as Hr
       end; unfold final in Hr;
       destruct (logResults req (S k) rest _) as [[|] w2]; simpl in *; done.
Qed.

(** When the result list is no longer than the token list, the result
    loop ends, writing one record per result and counting nothing. *)
Lemma logResults_aligned (req : PushNotification) (results : list gcm_Result) :
  ∀ (k : nat) (w : World),
    (k + length results ≤ length (Tokens req))%nat →
    let r := logResults req k results w in
    result r = Returns tt ∧ StatStorage (final r) = StatStorage w ∧
    gcmCalls (final r) = gcmCalls w ∧
    length (pushLog (final r)) = (length (pushLog w) + length results)%nat.
Proof.
  induction results as [|res rest IH]; intros k w Hk; simpl in *.
  - go_step. repeat split; try done; lia.
  - destruct (Tokens req !! k) as [token|] eqn:Hlk.
    2: { apply lookup_ge_None in Hlk. lia. }
    unfold mbind, go_bind.
    destruct (negb (ResultError res =? "")%string); go_step.
    all: match goal with
         | |- context [logResults _ (S _) _ ?w'] =>
             destruct (IH (S k) w' ltac:(lia)) as (Hr & Hs & Hg & Hl)
         end; unfold result, final in *; simpl in *;
         rewrite Hr, Hs, Hg, Hl; rewrite length_app; simpl; repeat split; try done; lia.
Qed.

(** A result list longer than the token list makes the loop read
    [req.Tokens[k]] out of range. *)
Lemma logResults_misaligned (req : PushNotification) (results : list gcm_Result) :
  ∀ (k : nat) (w : World),
    (k ≤ length (Tokens req))%nat →
    (length (Tokens req) < k + length results)%nat →
    result (logResults req k results w) = Panics "index out of range".
Proof.
  induction results as [|res rest IH]; intros k w Hle Hk; simpl in *.
  - lia.
  - destruct (Tokens req !! k) as [token|] eqn:Hlk; [|done].
    apply lookup_lt_Some in Hlk.
    unfold mbind, go_bind.
    destruct (negb (ResultError res =? "")%string); go_step.
    all: match goal with
         | |- context [logResults _ (S _) _ ?w'] =>
             pose proof (IH (S k) w' ltac:(lia) ltac:(lia)) as Hr
         end; unfold result in Hr;
         destruct (logResults req (S k) rest _) as [o w2]; simpl in *; subst o; done.
Qed.

(** What the dispatcher does once the validator has let the
    notification through. *)
Lemma PushToAndroid_valid (req : PushNotification) (w : World) :
  result (CheckMessage req w) = Returns None →
  let r := PushToAndroid req w in
  gcmCalls (final r) = (gcmCalls w ++ [(APIKey req, GetAndroidNotification req)])%list ∧
  match gcmNetwork (gcmCalls w) (APIKey req) (GetAndroidNotification req) with
  | SendError _ =>
      result r = Returns false ∧
      StatStorage (final r) = StatStorage w ∧ pushLog (final r) = pushLog w
  | SendResponse res =>
      (length (Results res) ≤ length (Tokens req))%nat →
      result r = Returns true ∧
      AndroidSuccess (StatStorage (final r)) = AndroidSuccess (StatStorage w) + Success res ∧
      AndroidError (StatStorage (final r)) = AndroidError (StatStorage w) + Failure res ∧
      length (pushLog (final r)) = (length (pushLog w) + length (Results res))%nat
  end.
Proof.
  intros Hc. unfold PushToAndroid.
  set (w1 := set_accessLog (accessLog w ++ ["Start push notification for Android"]) w).
  rewrite (CheckMessage_world req w w1) in Hc.
  pose proof (CheckMessage_frame req w1) as Hf.
  unfold result, final, mbind, go_bind, LogAccess_Debug, modify in *. fold w1.
  destruct (CheckMessage req w1) as [o w2]. simpl in *. subst o.
  destruct Hf as (_ & _ & Hs & Hp & _ & _ & Hg).
  unfold gcm_SendHttp. rewrite Hg. simpl.
  destruct (gcmNetwork (gcmCalls w) (APIKey req) (GetAndroidNotification req))
    as [e|res]; simpl.
  - unfold LogError_Error, modify, mret, go_ret. simpl. rewrite ?Hg, ?Hs, ?Hp. done.
  - unfold AddAndroidSuccess, AddAndroidError, modify, mret, go_ret. simpl.
    match goal with
    | |- context [logResults req 0 (Results res) ?w'] =>
        pose proof (logResults_aligned req (Results res) 0 w') as Hl
    end.
    match goal with
    | |- context [logResults req 0 (Results res) ?w'] =>
        pose proof (logResults_frame req (Results res) 0 w') as Hf3
    end.
    unfold result, final in Hl, Hf3. simpl in Hl, Hf3.
    destruct (logResults req 0 (Results res) _) as [o w3]. simpl in *.
    split.
    + destruct o; simpl; rewrite ?Hf3; simpl; done.
    + intros Hlen. destruct (Hl Hlen) as (-> & Hs3 & Hg3 & Hp3). simpl.
      rewrite Hs3, Hp3, Hs, Hp. simpl. done.
Qed.

(** C5. [PushToAndroid] returns false when its re-validation fails or
    when the one batched network call returns a transport error, and in
    both cases no counter is incremented and no per-token outcome is
    logged; on a completed call, whose result list is aligned with the
    token list, it returns true whatever the results say. *)
Theorem PushToAndroid_return_value (req : PushNotification) (w : World) :
  let r := PushToAndroid req w in
  let answer := gcmNetwork (gcmCalls w) (APIKey req) (GetAndroidNotification req) in
  (∀ e, result (CheckMessage req w) = Returns (Some e) →
     result r = Returns false ∧ StatStorage (final r) = StatStorage w ∧
     pushLog (final r) = pushLog w ∧ gcmCalls (final r) = gcmCalls w)
  ∧ (∀ e, result (CheckMessage req w) = Returns None → answer = SendError e →
     result r = Returns false ∧ StatStorage (final r) = StatStorage w ∧
     pushLog (final r) = pushLog w)
  ∧ (∀ res, result (CheckMessage req w) = Returns None → answer = SendResponse res →
     (length (Results res) ≤ length (Tokens req))%nat →
     result r = Returns true).
Proof.
  intros r answer. split; [|split].
  - intros e He.
    destruct (PushToAndroid_invalid req w e He) as (? & ? & ? & ?). done.
  - intros e Hok Hans.
    destruct (PushToAndroid_valid req w Hok) as [_ Hv].
    fold answer in Hv. rewrite Hans in Hv. exact Hv.
  - intros res Hok Hans Hlen.
    destruct (PushToAndroid_valid req w Hok) as [_ Hv].
    fold answer in Hv. rewrite Hans in Hv. destruct (Hv Hlen) as (? & _). done.
Qed.

(** C6. For an Android notification, a token list longer than 1000 is
    rejected by the validator, with the at-most-1000 error when the
    message is not empty, and [PushToAndroid] then makes no network
    call; a token list of exactly 1000 is accepted. *)
Theorem CheckMessage_android_token_limit (req : PushNotification) (w : World) :
  Platform req = PlatFormAndroid →
  (1000 < len (Tokens req) →
     (∃ msg, result (CheckMessage req w) = Returns (Some msg)) ∧
     (Message req ≠ "" →
      result (CheckMessage req w) =
        Returns (Some "the message may specify at most 1000 registration IDs")) ∧
     result (PushToAndroid req w) = Returns false ∧
     gcmCalls (final (PushToAndroid req w)) = gcmCalls w)
  ∧ (len (Tokens req) = 1000 → Message req ≠ "" → ttlAcceptable req →
     result (CheckMessage req w) = Returns None).
Proof.
  intros Hp. split.
  - intros Hn.
    assert (Hrej : (∃ msg, result (CheckMessage req w) = Returns (Some msg)) ∧
              (Message req ≠ "" →
               result (CheckMessage req w) =
                 Returns (Some "the message may specify at most 1000 registration IDs"))).
    { unfold CheckMessage. rewrite Hp.
      assert (H0 : (len (Tokens req) =? 0) = false) by (apply Z.eqb_neq; lia).
      assert (H1 : (len (Tokens req) =? PlatFormIos) = false)
        by (apply Z.eqb_neq; unfold PlatFormIos; lia).
      assert (H2 : (1000 <? len (Tokens req)) = true) by (apply Z.ltb_lt; lia).
      rewrite H0, H1, H2. simpl.
      destruct (Message req =? "")%string eqn:Hm; go_step.
      - split; [eauto|]. apply String.eqb_eq in Hm. done.
      - split; [eauto|done]. }
    destruct Hrej as ([msg Hmsg] & Hfull).
    destruct (PushToAndroid_invalid req w msg Hmsg) as (? & ? & _).
    eauto 6.
  - intros Hn Hm Httl. apply String.eqb_neq in Hm.
    unfold CheckMessage. rewrite Hp, Hm, Hn. simpl.
    unfold ttlAcceptable in Httl. destruct (TimeToLive req) as [ttl|]; [|done].
    assert ((ttl <? 0) = false) as -> by (apply Z.ltb_ge; lia).
    assert ((2419200 <? ttl) = false) as -> by (apply Z.ltb_ge; lia).
    done.
Qed.

(** C7. For an Android notification whose time-to-live is present, a
    value outside [0, 2419200] is rejected by the validator, with the
    range error when the earlier tests pass, and a value inside the
    interval, both bounds included, is accepted. *)
Theorem CheckMessage_android_ttl_range (req : PushNotification) (w : World) (ttl : Z) :
  Platform req = PlatFormAndroid → TimeToLive req = Some ttl →
  (ttl < 0 ∨ 2419200 < ttl → ∃ msg, result (CheckMessage req w) = Returns (Some msg))
  ∧ (Message req ≠ "" → passesTokenTests req →
     (result (CheckMessage req w) =
        Returns (Some "the message's TimeToLive field must be an integer between 0 and 2419200 (4 weeks)")
      ↔ ttl < 0 ∨ 2419200 < ttl)
     ∧ (result (CheckMessage req w) = Returns None ↔ 0 <= ttl <= 2419200)).
Proof.
  intros Hp Httl. split.
  - intros Hout. unfold CheckMessage. rewrite Hp, Httl.
    assert (((ttl <? 0) || (2419200 <? ttl)) = true) as ->.
    { apply orb_true_iff. rewrite !Z.ltb_lt. done. }
    simpl. repeat case_match; go_step; eauto.
  - intros Hm (Hlen & Hquirk). apply String.eqb_neq in Hm.
    unfold CheckMessage. rewrite Hp, Hm, Httl.
    assert ((len (Tokens req) =? 0) = false) as -> by (apply Z.eqb_neq; lia).
    assert ((1000 <? len (Tokens req)) = false) as -> by (apply Z.ltb_ge; lia).
    assert (((len (Tokens req) =? PlatFormIos)
             && (slen (default "" (Tokens req !! 0%nat)) =? 0)) = false) as ->.
    { apply andb_false_iff.
      destruct (len (Tokens req) =? PlatFormIos) eqn:H1; [right|by left].
      apply Z.eqb_eq in H1.
      destruct (slen (default "" (Tokens req !! 0%nat)) =? 0) eqn:H2; [|done].
      apply slen_zero in H2. exfalso. apply Hquirk. split; [done|].
      destruct (Tokens req) as [|t ts]; [done|]. simpl in *. by subst t. }
    simpl.
    destruct (ttl <? 0) eqn:Hlo; [apply Z.ltb_lt in Hlo | apply Z.ltb_ge in Hlo];
      destruct (2419200 <? ttl) eqn:Hhi;
      [apply Z.ltb_lt in Hhi | apply Z.ltb_ge in Hhi | apply Z.ltb_lt in Hhi
       | apply Z.ltb_ge in Hhi];
      go_step; (split; split; intros; try done; try lia).
Qed.

End AndroidDispatch.

Lemma PushToAndroid_return_value_witness :
  result (PushToAndroid (env := envAndroid)
            (notice [] PlatFormAndroid "hello" "default") readyWorld) = Returns false
  ∧ result (PushToAndroid (env := envAndroidDown)
              (notice ["t"] PlatFormAndroid "hello" "default") readyWorld) = Returns false
  ∧ result (PushToAndroid (env := envAndroid)
              (notice ["t"] PlatFormAndroid "hello" "default") readyWorld) = Returns true.
Proof.
  split; [|split].
  - destruct (PushToAndroid_return_value (env := envAndroid)
                (notice [] PlatFormAndroid "hello" "default") readyWorld)
      as (Hinvalid & _ & _).
    apply (Hinvalid "the message must specify at least one registration ID").
    reflexivity.
  - destruct (PushToAndroid_return_value (env := envAndroidDown)
                (notice ["t"] PlatFormAndroid "hello" "default") readyWorld)
      as (_ & Hdown & _).
    apply (Hdown "unreachable"); reflexivity.
  - destruct (PushToAndroid_return_value (env := envAndroid)
                (notice ["t"] PlatFormAndroid "hello" "default") readyWorld)
      as (_ & _ & Hdone).
    apply (Hdone (mkHttpResponse 0 1 [mkGcmResult "" "" "NotRegistered"]));
      [reflexivity | reflexivity | simpl; lia].
Defined.

Lemma CheckMessage_android_token_limit_witness :
  result (CheckMessage (notice (replicate 1001 "t") PlatFormAndroid "hello" "default")
            readyWorld)
    = Returns (Some "the message may specify at most 1000 registration IDs")
  ∧ result (CheckMessage (notice (replicate 1000 "t") PlatFormAndroid "hello" "default")
              readyWorld) = Returns None.
Proof.
  split.
  - destruct (CheckMessage_android_token_limit (env := envAndroid)
                (notice (replicate 1001 "t") PlatFormAndroid "hello" "default") readyWorld)
      as [Hover _]; [reflexivity|].
    destruct Hover as (_ & Herr & _); [vm_compute; reflexivity|].
    apply Herr. discriminate.
  - destruct (CheckMessage_android_token_limit (env := envAndroid)
                (notice (replicate 1000 "t") PlatFormAndroid "hello" "default") readyWorld)
      as [_ Hexact]; [reflexivity|].
    apply Hexact; [vm_compute; reflexivity | discriminate | exact I].
Defined.

Lemma CheckMessage_android_ttl_range_witness :
  result (CheckMessage (withTimeToLive 0 (notice ["t"] PlatFormAndroid "hello" "default"))
            readyWorld) = Returns None
  ∧ result (CheckMessage
              (withTimeToLive 2419200 (notice ["t"] PlatFormAndroid "hello" "default"))
              readyWorld) = Returns None
  ∧ result (CheckMessage
              (withTimeToLive 2419201 (notice ["t"] PlatFormAndroid "hello" "default"))
              readyWorld)
    = Returns (Some "the message's TimeToLive field must be an integer between 0 and 2419200 (4 weeks)").
Proof.
  assert (Hpass : ∀ ttl, passesTokenTests
            (withTimeToLive ttl (notice ["t"] PlatFormAndroid "hello" "default"))).
  { intros ttl. split; [unfold len; simpl; lia|]. intros [_ H]. discriminate H. }
  split; [|split].
  - destruct (CheckMessage_android_ttl_range
                (withTimeToLive 0 (notice ["t"] PlatFormAndroid "hello" "default"))
                readyWorld 0) as [_ Hin]; [reflexivity | reflexivity |].
    apply Hin; [discriminate | apply Hpass | lia].
  - destruct (CheckMessage_android_ttl_range
                (withTimeToLive 2419200 (notice ["t"] PlatFormAndroid "hello" "default"))
                readyWorld 2419200) as [_ Hin]; [reflexivity | reflexivity |].
    apply Hin; [discriminate | apply Hpass | lia].
  - destruct (CheckMessage_android_ttl_range
                (withTimeToLive 2419201 (notice ["t"] PlatFormAndroid "hello" "default"))
                readyWorld 2419201) as [_ Hout]; [reflexivity | reflexivity |].
    apply Hout; [discriminate | apply Hpass | lia].
Defined.

(** ** The connection registry *)

Ltac outcome_done := repeat split; try done; try (intros [? ?]; done).

Section Registry.

Context {env : Environment}.

(** With iOS disabled for the application nothing is constructed and
    nothing is reported. *)
Lemma initAPNSClient_disabled (id : string) (w : World) :
  IosEnabled (Ios (app PushConf id)) = false →
  initAPNSClient id w = (Returns (None, None), w).
Proof. intros H. unfold initAPNSClient. rewrite H. reflexivity. Qed.

(** Construction returns; it yields a client or an error, never both,
    and a client only with iOS enabled; it leaves the registry, the
    queue, the counters, the delivery log and the networks alone. *)
Lemma initAPNSClient_outcome (id : string) (w : World) :
  ∃ client err,
    result (initAPNSClient id w) = Returns (client, err) ∧
    (is_Some err → client = None) ∧
    (is_Some client → IosEnabled (Ios (app PushConf id)) = true) ∧
    apnsClients (final (initAPNSClient id w)) = apnsClients w ∧
    apnsCalls (final (initAPNSClient id w)) = apnsCalls w ∧
    StatStorage (final (initAPNSClient id w)) = StatStorage w ∧
    pushLog (final (initAPNSClient id w)) = pushLog w.
Proof.
  unfold initAPNSClient.
  destruct (IosEnabled (Ios (app PushConf id))) eqn:Hen.
  2: { exists None, None. go_step. outcome_done. }
  destruct (filepath_Ext (KeyPath (Ios (app PushConf id))) =? ".p12")%string.
  { destruct (FromP12File _ _) as [cert [e|]]; go_step.
    - exists None, (Some e). outcome_done.
    - destruct (Production (Ios (app PushConf id))); go_step;
        eexists _, None; outcome_done. }
  destruct (filepath_Ext (KeyPath (Ios (app PushConf id))) =? ".pem")%string.
  { destruct (FromPemFile _ _) as [cert [e|]]; go_step.
    - exists None, (Some e). outcome_done.
    - destruct (Production (Ios (app PushConf id))); go_step;
        eexists _, None; outcome_done. }
  go_step. eexists None, (Some _). outcome_done.
Qed.

(** A key that is present is returned as stored, with no error, and
    nothing is constructed. *)
Lemma GetAPNSClient_hit (id : string) (w : World)
    (m : gmap string (option Client)) (client : option Client) :
  apnsClients w = Some m → m !! id = Some client →
  GetAPNSClient id w = (Returns (client, None), w).
Proof.
  intros Hm Hid.
  unfold GetAPNSClient, lookupClient, mbind, go_bind, gets, mret, go_ret.
  rewrite Hm, Hid. reflexivity.
Qed.

(** A key that is absent is constructed, and whatever construction
    returned is stored under the key. *)
Lemma GetAPNSClient_miss (id : string) (w : World)
    (m : gmap string (option Client)) (client : option Client) (err : error) :
  apnsClients w = Some m → m !! id = None →
  result (initAPNSClient id w) = Returns (client, err) →
  GetAPNSClient id w =
    (Returns (client, err),
     set_apnsClients (Some (<[id := client]> m)) (final (initAPNSClient id w))).
Proof.
  intros Hm Hid Hinit.
  destruct (initAPNSClient_outcome id w) as (c & e & _ & _ & _ & Hc & _).
  unfold GetAPNSClient, lookupClient, mbind, go_bind, gets, mret, go_ret.
  rewrite Hm, Hid. cbn beta iota. rewrite Hm, Hid. cbn beta iota.
  unfold result, final in *.
  destruct (initAPNSClient id w) as [o w1]. simpl in *. subst o.
  unfold storeClient. rewrite Hc, Hm. reflexivity.
Qed.

(** On the nil map a miss panics at the store. *)
Lemma GetAPNSClient_nil_map (id : string) (w : World) :
  apnsClients w = None →
  result (GetAPNSClient id w) = Panics "assignment to entry in nil map".
Proof.
  intros Hm.
  destruct (initAPNSClient_outcome id w) as (c & e & Hr & _ & _ & Hc & _).
  unfold GetAPNSClient, lookupClient, mbind, go_bind, gets, mret, go_ret.
  rewrite Hm. cbn beta iota. rewrite Hm. cbn beta iota.
  unfold result, final in *.
  destruct (initAPNSClient id w) as [o w1]. simpl in *. subst o.
  unfold storeClient. rewrite Hc, Hm. reflexivity.
Qed.

(** A lookup that reports an error leaves a nil entry behind: the next
    lookup for the same application returns a nil client and no error,
    and constructs nothing. *)
Lemma GetAPNSClient_failure_cached (id : string) (w : World)
    (client : option Client) (e : string) :
  result (GetAPNSClient id w) = Returns (client, Some e) →
  let w1 := final (GetAPNSClient id w) in
  GetAPNSClient id w1 = (Returns (None, None), w1).
Proof.
  intros Hres w1. subst w1.
  destruct (apnsClients w) as [m|] eqn:Hm.
  2: { rewrite GetAPNSClient_nil_map in Hres; done. }
  destruct (m !! id) as [c|] eqn:Hid.
  { rewrite (GetAPNSClient_hit id w m c Hm Hid) in Hres. done. }
  destruct (initAPNSClient_outcome id w) as (c & e' & Hr & Hnil & _).
  rewrite (GetAPNSClient_miss id w m c e' Hm Hid Hr) in Hres |- *.
  unfold result, final in Hres |- *. simpl in Hres |- *.
  injection Hres as -> ->. rewrite Hnil by eauto.
  eapply GetAPNSClient_hit; [reflexivity|]. apply lookup_insert_eq.
Qed.

(** Lookups keep the registry consistent with the configuration, and
    return. *)
Lemma GetAPNSClient_consistent (id : string) (w : World) :
  registryConsistent PushConf w →
  registryConsistent PushConf (final (GetAPNSClient id w)) ∧
  ∃ client err, result (GetAPNSClient id w) = Returns (client, err).
Proof.
  intros (m & Hm & Hen).
  destruct (m !! id) as [c|] eqn:Hid.
  { rewrite (GetAPNSClient_hit id w m c Hm Hid). split; [|by eauto].
    exists m. done. }
  destruct (initAPNSClient_outcome id w) as (c & e & Hr & _ & Hon & _).
  rewrite (GetAPNSClient_miss id w m c e Hm Hid Hr). split; [|by eauto].
  exists (<[id := c]> m). split; [done|].
  intros id' c' Hlk. destruct (decide (id = id')) as [<-|Hne].
  - rewrite lookup_insert_eq in Hlk. injection Hlk as ->. apply Hon. eauto.
  - rewrite lookup_insert_ne in Hlk by done. eauto.
Qed.

(** With iOS disabled for the application, a lookup in a consistent
    registry returns a nil client and no error. *)
Lemma GetAPNSClient_disabled (id : string) (w : World) :
  registryConsistent PushConf w →
  IosEnabled (Ios (app PushConf id)) = false →
  result (GetAPNSClient id w) = Returns (None, None) ∧
  apnsCalls (final (GetAPNSClient id w)) = apnsCalls w.
Proof.
  intros (m & Hm & Hen) Hoff.
  destruct (m !! id) as [[c|]|] eqn:Hid.
  - apply Hen in Hid. congruence.
  - rewrite (GetAPNSClient_hit id w m None Hm Hid). done.
  - pose proof (initAPNSClient_disabled id w Hoff) as Hinit.
    rewrite (GetAPNSClient_miss id w m None None Hm Hid)
      by (rewrite Hinit; reflexivity).
    rewrite Hinit. done.
Qed.

(** Such a lookup writes no delivery record and moves no counter. *)
Lemma GetAPNSClient_disabled_frame (id : string) (w : World) :
  registryConsistent PushConf w →
  IosEnabled (Ios (app PushConf id)) = false →
  pushLog (final (GetAPNSClient id w)) = pushLog w ∧
  StatStorage (final (GetAPNSClient id w)) = StatStorage w.
Proof.
  intros (m & Hm & Hen) Hoff.
  destruct (m !! id) as [[c|]|] eqn:Hid.
  - apply Hen in Hid. congruence.
  - rewrite (GetAPNSClient_hit id w m None Hm Hid). done.
  - pose proof (initAPNSClient_disabled id w Hoff) as Hinit.
    rewrite (GetAPNSClient_miss id w m None None Hm Hid)
      by (rewrite Hinit; reflexivity).
    rewrite Hinit. done.
Qed.

End Registry.

Lemma registryConsistent_ready (conf : ConfYaml) : registryConsistent conf readyWorld.
Proof. exists ∅. split; [reflexivity|]. intros id c H. rewrite lookup_empty in H. done. Qed.

(** ** The iOS dispatcher *)

Section IosDispatch.

Context {env : Environment}.

(** With a client, the token loop returns. It calls the network once
    per token, in order, with the client it was given; it counts every
    failed attempt as an error and every other attempt as a success; the
    flag it returns is raised by errors of the call only. *)
Lemma pushTokens_accounting (apnsClient : Client) (req : PushNotification)
    (tokens : list string) :
  ∀ (notification : apns_Notification) (isError : bool) (w : World),
    let r := pushTokens (Some apnsClient) req notification tokens isError w in
    let answers := pushAnswers (apnsCalls w) (Some apnsClient) notification tokens in
    result r = Returns (isError || existsb transportFailed answers) ∧
    apnsCalls (final r) =
      (apnsCalls w
         ++ map (fun t => (Some apnsClient, setDeviceToken t notification)) tokens)%list ∧
    IosError (StatStorage (final r)) =
      IosError (StatStorage w) + len (List.filter deliveryFailed answers) ∧
    IosSuccess (StatStorage (final r)) =
      IosSuccess (StatStorage w)
      + len (List.filter (fun a => negb (deliveryFailed a)) answers) ∧
    apnsClients (final r) = apnsClients w.
Proof.
  induction tokens as [|token rest IH]; intros notification isError w.
  - simpl. go_step. rewrite orb_false_r, app_nil_r, !Z.add_0_r. done.
  - simpl. unfold mbind, go_bind, client_Push. cbn beta iota.
    set (n := setDeviceToken token notification).
    destruct (apnsNetwork (apnsCalls w) (Some apnsClient) n) as [e|res] eqn:Hans.
    + unfold LogPush, AddIosError, modify. cbn beta iota.
      match goal with
      | |- context [pushTokens (Some apnsClient) req n rest true ?w'] =>
          destruct (IH n true w') as (Hr & Hc & He & Hs & Hm)
      end.
      simpl in Hr, Hc, He, Hs, Hm. simpl.
      rewrite Hr, Hc, He, Hs, Hm. simpl.
      rewrite <- app_assoc. simpl.
      rewrite orb_true_r. unfold len. simpl length.
      repeat split; try done; lia.
    + unfold response_Sent.
      destruct (StatusCode res =? 200) eqn:Hcode; cbn [negb]; cbn beta iota.
      * unfold LogPush, AddIosSuccess, modify, mret, go_ret. cbn beta iota.
        match goal with
        | |- context [pushTokens (Some apnsClient) req n rest isError ?w'] =>
            destruct (IH n isError w') as (Hr & Hc & He & Hs & Hm)
        end.
        simpl in Hr, Hc, He, Hs, Hm. simpl.
        rewrite Hr, Hc, He, Hs, Hm, Hcode. simpl.
        rewrite <- app_assoc. simpl. unfold len. simpl length.
        repeat split; try done; lia.
      * unfold LogPush, AddIosError, modify. cbn beta iota.
        match goal with
        | |- context [pushTokens (Some apnsClient) req n rest isError ?w'] =>
            destruct (IH n isError w') as (Hr & Hc & He & Hs & Hm)
        end.
        simpl in Hr, Hc, He, Hs, Hm. simpl.
        rewrite Hr, Hc, He, Hs, Hm, Hcode. simpl.
        rewrite <- app_assoc. simpl. unfold len. simpl length.
        repeat split; try done; lia.
Qed.

(** Without a client, the token loop panics at its first call, before
    anything is sent, logged or counted; with no token it returns. *)
Lemma pushTokens_nil_client (req : PushNotification) (notification : apns_Notification)
    (tokens : list string) (isError : bool) (w : World) :
  pushTokens None req notification tokens isError w
  = (if decide (tokens = []) then Returns isError
     else Panics "invalid memory address or nil pointer dereference", w).
Proof. destruct tokens; reflexivity. Qed.

(** When the registry hands out a client with no error, the dispatcher
    runs the token loop with that client. *)
Lemma PushToIOS_dispatch (req : PushNotification) (w : World)
    (client : option Client) :
  let w0 := set_accessLog (accessLog w ++ ["Start push notification for iOS"]) w in
  result (GetAPNSClient (AppID req) w0) = Returns (client, None) →
  PushToIOS req w =
    pushTokens client req (GetIOSNotification req) (Tokens req) false
      (final (GetAPNSClient (AppID req) w0)).
Proof.
  intros w0 Hget. unfold PushToIOS, mbind, go_bind, LogAccess_Debug, modify.
  cbn beta iota. fold w0. unfold result, final in *.
  destruct (GetAPNSClient (AppID req) w0) as [o w1]. simpl in *. subst o.
  reflexivity.
Qed.

(** When the registry reports an error, the dispatcher logs the whole
    notification as failed once, calls the network for no token, and
    returns true. *)
Lemma PushToIOS_no_client (req : PushNotification) (w : World)
    (client : option Client) (e : string) :
  let w0 := set_accessLog (accessLog w ++ ["Start push notification for iOS"]) w in
  result (GetAPNSClient (AppID req) w0) = Returns (client, Some e) →
  let w1 := final (GetAPNSClient (AppID req) w0) in
  PushToIOS req w =
    (Returns true,
     set_pushLog (pushLog w1 ++ [mkPushLog FailedPush "" req (Some e)]) w1).
Proof.
  intros w0 Hget. unfold PushToIOS, mbind, go_bind, LogAccess_Debug, modify.
  cbn beta iota. fold w0. unfold result, final in *.
  destruct (GetAPNSClient (AppID req) w0) as [o w1]. simpl in *. subst o.
  reflexivity.
Qed.


End IosDispatch.


Section IosReturnValue.

Context {env : Environment}.

(** With a client obtained, the value [PushToIOS] returns is whether
    some call of the network ended in an error of the call itself. *)
Lemma PushToIOS_return_value (req : PushNotification) (w : World)
    (client : Client) :
  let w0 := set_accessLog (accessLog w ++ ["Start push notification for iOS"]) w in
  let w1 := final (GetAPNSClient (AppID req) w0) in
  let answers :=
    pushAnswers (apnsCalls w1) (Some client) (GetIOSNotification req) (Tokens req) in
  result (GetAPNSClient (AppID req) w0) = Returns (Some client, None) →
  result (PushToIOS req w) = Returns (existsb transportFailed answers) ∧
  IosError (StatStorage (final (PushToIOS req w))) =
    IosError (StatStorage w1) + len (List.filter deliveryFailed answers).
Proof.
  intros w0 w1 answers Hget.
  rewrite (PushToIOS_dispatch req w (Some client) Hget). fold w0 w1.
  destruct (pushTokens_accounting client req (Tokens req) (GetIOSNotification req)
              false w1) as (Hr & _ & He & _).
  split; [exact Hr | exact He].
Qed.

End IosReturnValue.

(** C1. With the client obtained, one token, and the network answering
    with status 400 and a reason, [PushToIOS] counts and logs the failed
    attempt and returns false. *)
Theorem PushToIOS_status_failure_returns_false :
  let req := notice ["token-1"] PlatFormIos "hello" "default" in
  let r := PushToIOS (env := envRejecting) req readyWorld in
  result r = Returns false ∧
  IosError (StatStorage (final r)) = 1 ∧
  IosSuccess (StatStorage (final r)) = 0 ∧
  pushLog (final r) = [mkPushLog FailedPush "token-1" req (Some "BadDeviceToken")].
Proof. vm_compute. repeat split; reflexivity. Qed.

(** C2. With a key path of an unknown extension, the first lookup
    reports the construction error; the second lookup for the same
    application returns a nil client and no error, and changes nothing:
    the failure has been stored, and construction is not attempted
    again. *)
Theorem GetAPNSClient_failed_construction_is_cached :
  let first := GetAPNSClient (env := envBadKey) "default" readyWorld in
  let second := GetAPNSClient (env := envBadKey) "default" (final first) in
  result first = Returns (None, Some "Wrong Certificate key extension.") ∧
  apnsClients (final first) = Some (<["default" := None]> ∅) ∧
  result second = Returns (None, None) ∧
  final second = final first.
Proof.
  cbv zeta.
  assert (Hfirst : result (GetAPNSClient (env := envBadKey) "default" readyWorld)
                   = Returns (None, Some "Wrong Certificate key extension."))
    by (vm_compute; reflexivity).
  pose proof (GetAPNSClient_failure_cached (env := envBadKey) "default"
                readyWorld None _ Hfirst) as Hsecond.
  cbv zeta in Hsecond. rewrite Hsecond.
  repeat split; try done; vm_compute; reflexivity.
Qed.

(** ** The payload builders *)

(** C8. For a notification none of whose optional payload fields is set,
    the payload [GetIOSNotification] builds has the message as its alert
    and nothing else: no badge, sound, category, content-available flag,
    URL arguments, alert dictionary or custom data. *)
Theorem GetIOSNotification_message_only (req : PushNotification) :
  messageOnly req →
  nPayload (GetIOSNotification req)
    = Some (mkPayload (AlertString (Message req)) None None false None None ∅).
Proof.
  intros (Ht & Hs & Hc & Hb & Hca & Hu & Hd & Ha).
  unfold GetIOSNotification, iosAlertDictionary.
  rewrite Ht, Hs, Hc, Hb, Hca, Hu, Hd, Ha. simpl.
  rewrite map_fold_empty. reflexivity.
Qed.

Lemma GetIOSNotification_message_only_witness :
  nPayload (GetIOSNotification (notice ["t"] PlatFormIos "hello" "default"))
    = Some (mkPayload (AlertString "hello") None None false None None ∅).
Proof.
  apply (GetIOSNotification_message_only (notice ["t"] PlatFormIos "hello" "default")).
  repeat split; reflexivity.
Defined.

(** C9. The batch message [GetAndroidNotification] builds carries a
    notification sub-object whose body is the message when the request's
    sub-object has no body, and the explicit body otherwise, and whose
    title is the request's top-level title when that title is not empty,
    whatever title the sub-object had. *)
Theorem GetAndroidNotification_body_title (req : PushNotification) :
  ∃ sub, mNotification (GetAndroidNotification req) = Some sub ∧
    gcmBody sub = (if decide (gcmBody (Notification req) = "")
                   then Message req else gcmBody (Notification req)) ∧
    gcmTitle sub = (if decide (Title req = "")
                    then gcmTitle (Notification req) else Title req).
Proof.
  unfold GetAndroidNotification. eexists. split; [reflexivity|].
  destruct (decide (gcmBody (Notification req) = "")) as [Hb|Hb];
    destruct (decide (Title req = "")) as [Ht|Ht].
  all: try (apply slen_zero in Hb as Hb'; rewrite Hb').
  all: try (assert ((slen (gcmBody (Notification req)) =? 0) = false) as ->
              by (destruct (slen (gcmBody (Notification req)) =? 0) eqn:E;
                  [apply slen_zero in E; done | done])).
  all: try (rewrite Ht; rewrite slen_pos_empty).
  all: try (apply slen_pos in Ht as Ht'; rewrite Ht').
  all: destruct (0 <? slen (Sound req)); simpl; done.
Qed.

(** ** The dispatch queue *)

Lemma Tokens_resolved (n : PushNotification) : Tokens (resolved n) = Tokens n.
Proof. unfold resolved. destruct (AppID n =? "")%string; reflexivity. Qed.

Lemma Platform_resolved (n : PushNotification) : Platform (resolved n) = Platform n.
Proof. unfold resolved. destruct (AppID n =? "")%string; reflexivity. Qed.

Lemma tokenTotal_cons (keep : PushNotification → bool) (n : PushNotification)
    (ns : list PushNotification) :
  tokenTotal keep (n :: ns)
    = (if keep n then len (Tokens n) else 0) + tokenTotal keep ns.
Proof.
  unfold tokenTotal. rewrite filter_cons.
  destruct (keep n) eqn:Hk; case_decide; try done; simpl; lia.
Qed.

(** On the two platforms of the enum, the loop's test and the
    specification's wording agree. *)
Lemma admitted_eligible (conf : ConfYaml) (n : PushNotification) :
  knownPlatform n → admitted conf n = eligible conf n.
Proof.
  unfold admitted, eligible, knownPlatform, PlatFormIos, PlatFormAndroid.
  intros [Hp|Hp]; rewrite Hp; destruct (Apps conf !! AppID (resolved n)); reflexivity.
Qed.

Lemma filter_admitted_eligible (conf : ConfYaml) (ns : list PushNotification) :
  Forall knownPlatform ns →
  filter (fun n => admitted conf n = true) ns
  = filter (fun n => eligible conf n = true) ns.
Proof.
  induction 1 as [|n ns Hn _ IH]; [done|].
  rewrite !filter_cons, IH, (admitted_eligible conf n Hn). done.
Qed.

Section Queue.

Context {env : Environment}.

(** The loop returns the running total plus the tokens of the
    notifications it admits, appends exactly those to the queue, in
    order and with the application identity defaulted, and leaves the
    counters to its caller. *)
Lemma queueLoop_spec (ns : list PushNotification) :
  ∀ (count : Z) (w : World),
    let r := queueLoop ns count w in
    result r = Returns (count + tokenTotal (admitted PushConf) ns) ∧
    QueueNotification (final r) =
      (QueueNotification w
         ++ map resolved (filter (fun n => admitted PushConf n = true) ns))%list ∧
    StatStorage (final r) = StatStorage w.
Proof.
  induction ns as [|n rest IH]; intros count w.
  - simpl. go_step. rewrite Z.add_0_r, app_nil_r. done.
  - cbn [queueLoop]. fold (resolved n).
    rewrite tokenTotal_cons, filter_cons.
    destruct (Apps PushConf !! AppID (resolved n)) as [a|] eqn:Happ.
    + assert (Ha : app PushConf (AppID (resolved n)) = a)
        by (unfold app; rewrite Happ; reflexivity).
      assert (Hadm : admitted PushConf n =
                if Platform n =? PlatFormIos then IosEnabled (Ios a)
                else if Platform n =? PlatFormAndroid
                     then AndroidEnabled (Android a) else true)
        by (unfold admitted; rewrite Happ; reflexivity).
      rewrite Hadm, Ha, Platform_resolved, Tokens_resolved.
      assert (Hsend : ∀ w',
        let r := (enqueue (resolved n) ;;
                  queueLoop rest (count + len (Tokens n))) w' in
        result r = Returns (count + (len (Tokens n) + tokenTotal (admitted PushConf) rest)) ∧
        QueueNotification (final r) =
          (QueueNotification w'
             ++ map resolved (n :: filter (fun n => admitted PushConf n = true) rest))%list ∧
        StatStorage (final r) = StatStorage w').
      { intros w'. unfold mbind, go_bind, enqueue, modify. cbn beta iota.
        match goal with
        | |- context [queueLoop rest _ ?w2] =>
            destruct (IH (count + len (Tokens n)) w2) as (Hr & Hq & Hs)
        end.
        simpl in Hr, Hq, Hs. simpl. rewrite Hr, Hq, Hs.
        rewrite <- app_assoc. simpl. repeat split; try done. f_equal. lia. }
      destruct (Platform n =? PlatFormIos).
      { destruct (IosEnabled (Ios a)); cbn [negb]; cbn iota.
        - rewrite decide_True by done. apply Hsend.
        - rewrite decide_False by done. rewrite Z.add_0_l. apply IH. }
      destruct (Platform n =? PlatFormAndroid).
      { destruct (AndroidEnabled (Android a)); cbn [negb]; cbn iota.
        - rewrite decide_True by done. apply Hsend.
        - rewrite decide_False by done. rewrite Z.add_0_l. apply IH. }
      rewrite decide_True by done. apply Hsend.
    + assert (Hadm : admitted PushConf n = false)
        by (unfold admitted; rewrite Happ; reflexivity).
      rewrite Hadm, decide_False by done. rewrite Z.add_0_l.
      unfold mbind, go_bind, LogError_Error, modify. cbn beta iota.
      match goal with
      | |- context [queueLoop rest count ?w2] =>
          destruct (IH count w2) as (Hr & Hq & Hs)
      end.
      simpl in Hr, Hq, Hs. simpl. rewrite Hr, Hq, Hs. done.
Qed.

(** [queueNotification] returns the number of tokens admitted and adds
    it to the accepted total. *)
Lemma queueNotification_spec (req : RequestPush) (w : World) :
  let r := queueNotification req w in
  let total := tokenTotal (admitted PushConf) (Notifications req) in
  result r = Returns total ∧
  QueueNotification (final r) =
    (QueueNotification w
       ++ map resolved
            (filter (fun n => admitted PushConf n = true) (Notifications req)))%list ∧
  TotalCount (StatStorage (final r)) = TotalCount (StatStorage w) + total.
Proof.
  unfold queueNotification, mbind, go_bind, AddTotalCount, modify, mret, go_ret.
  destruct (queueLoop_spec (Notifications req) 0 w) as (Hr & Hq & Hs).
  unfold result, final in *.
  destruct (queueLoop (Notifications req) 0 w) as [o w1]. simpl in *. subst o.
  simpl. rewrite Hq, Hs. done.
Qed.

(** C4, as amended. For a request whose notifications all have platform
    iOS or Android, exactly the notifications whose (defaulted)
    application identity exists in the configuration and has the
    notification's platform enabled are put on the queue, in order, and
    the accepted total grows by the number of their tokens; a dropped
    notification adds nothing to either. *)
Theorem queueNotification_known_platforms (req : RequestPush) (w : World) :
  Forall knownPlatform (Notifications req) →
  queuesExactlyEligible req w ∧
  result (queueNotification req w)
    = Returns (tokenTotal (eligible PushConf) (Notifications req)).
Proof.
  intros Hknown.
  destruct (queueNotification_spec req w) as (Hr & Hq & Ht).
  pose proof (filter_admitted_eligible PushConf (Notifications req) Hknown)
    as Hfilter.
  assert (Htotal :
    tokenTotal (admitted PushConf) (Notifications req)
    = tokenTotal (eligible PushConf) (Notifications req)).
  { unfold tokenTotal. rewrite Hfilter. done. }
  unfold queuesExactlyEligible. cbv zeta.
  rewrite Hr, Hq, Ht, Hfilter, Htotal. done.
Qed.

End Queue.

Lemma queueNotification_known_platforms_witness :
  QueueNotification
    (final (queueNotification (env := envAndroid)
              (mkRequestPush [notice ["a"; "b"] PlatFormAndroid "hello" "";
                              notice ["c"] PlatFormIos "hello" "default";
                              notice ["d"] PlatFormAndroid "hello" "other"])
              readyWorld))
    = [notice ["a"; "b"] PlatFormAndroid "hello" "default"]
  ∧ TotalCount
      (StatStorage
         (final (queueNotification (env := envAndroid)
                   (mkRequestPush [notice ["a"; "b"] PlatFormAndroid "hello" "";
                                   notice ["c"] PlatFormIos "hello" "default";
                                   notice ["d"] PlatFormAndroid "hello" "other"])
                   readyWorld))) = 2.
Proof.
  destruct (queueNotification_known_platforms (env := envAndroid)
              (mkRequestPush [notice ["a"; "b"] PlatFormAndroid "hello" "";
                              notice ["c"] PlatFormIos "hello" "default";
                              notice ["d"] PlatFormAndroid "hello" "other"])
              readyWorld) as [[Hqueue Htotal] _].
  - repeat (constructor; [first [left; reflexivity | right; reflexivity]|]).
    constructor.
  - split; [exact Hqueue | exact Htotal].
Defined.

(** C4, as stated, fails: a notification whose platform is neither iOS
    nor Android is queued and counted as soon as its application is
    known, although the application has no platform enabled. *)
Lemma queueNotification_unknown_platform_is_queued :
  ¬ queuesExactlyEligible (env := envDisabled)
      (mkRequestPush [notice ["a"] 3 "hello" "default"]) readyWorld.
Proof. intros [Hqueue _]. vm_compute in Hqueue. discriminate Hqueue. Qed.

(** * Further properties *)

(** ** The validator, in full *)

Lemma single_empty_token (tokens : list string) :
  (len tokens = PlatFormIos ∧ tokens !! 0%nat = Some "") ↔ tokens = [""].
Proof.
  unfold len, PlatFormIos. split.
  - intros [Hlen Hhd]. destruct tokens as [|t [|t' ts]]; simpl in *; try lia.
    by injection Hhd as ->.
  - intros ->. done.
Qed.

Lemma CheckMessage_accepts (req : PushNotification) (w : World) :
  result (CheckMessage req w) = Returns None ↔ validRequest req.
Proof.
  unfold validRequest, CheckMessage.
  destruct (Message req =? "")%string eqn:Hm.
  { apply String.eqb_eq in Hm. go_step. split; [done | intros (? & _); done]. }
  apply String.eqb_neq in Hm.
  destruct (len (Tokens req) =? 0) eqn:H0.
  { apply Z.eqb_eq in H0. go_step. split; [done|]. intros (_ & Hne & _).
    destruct (Tokens req); [done | unfold len in H0; simpl in H0; lia]. }
  apply Z.eqb_neq in H0.
  assert (Hne : Tokens req ≠ []) by (intros E; rewrite E in H0; done).
  destruct ((len (Tokens req) =? PlatFormIos)
            && (slen (default "" (Tokens req !! 0%nat)) =? 0)) eqn:H1.
  { apply andb_true_iff in H1 as [Hl Hs]. apply Z.eqb_eq in Hl. apply slen_zero in Hs.
    assert (Tokens req = [""]) as Hsingle.
    { apply single_empty_token. split; [done|].
      destruct (Tokens req) as [|t ts]; [done|]. simpl in *. by subst t. }
    go_step. split; [done | intros (_ & _ & ? & _); done]. }
  assert (Hns : Tokens req ≠ [""]).
  { intros E. rewrite E in H1. done. }
  destruct (Platform req =? PlatFormAndroid) eqn:Hp; simpl.
  2: { apply Z.eqb_neq in Hp. go_step. split; [|done]. intros _. repeat split; try done. }
  apply Z.eqb_eq in Hp.
  destruct (1000 <? len (Tokens req)) eqn:Hn.
  { apply Z.ltb_lt in Hn. go_step. split; [done|].
    intros (_ & _ & _ & Hlim). destruct (Hlim Hp). lia. }
  apply Z.ltb_ge in Hn. unfold ttlAcceptable.
  destruct (TimeToLive req) as [ttl|]; simpl.
  2: { go_step. split; [|done]. intros _. repeat split; try done. }
  destruct ((ttl <? 0) || (2419200 <? ttl)) eqn:Ht.
  - apply orb_true_iff in Ht. rewrite !Z.ltb_lt in Ht. go_step. split; [done|].
    intros (_ & _ & _ & Hlim). destruct (Hlim Hp). lia.
  - apply orb_false_iff in Ht. rewrite !Z.ltb_ge in Ht. go_step. split; [|done].
    intros _. repeat split; try done; lia.
Qed.

(** X1. The validator accepts a notification exactly when its message is
    not empty, its token list is neither empty nor a single empty token
    and, for the Android platform only, it has at most 1000 tokens and a
    time-to-live that is absent or within [0, 2419200]; every other
    notification is rejected with a message. *)
Theorem CheckMessage_accepts_exactly_valid (req : PushNotification) (w : World) :
  (result (CheckMessage req w) = Returns None ↔ validRequest req)
  ∧ (¬ validRequest req ↔ ∃ msg, result (CheckMessage req w) = Returns (Some msg)).
Proof.
  split; [apply CheckMessage_accepts|].
  destruct (CheckMessage_returns req w) as [[msg|] Hr].
  - split; [eauto|]. intros _ Hv. apply CheckMessage_accepts with (w := w) in Hv.
    congruence.
  - split.
    + intros Hn. exfalso. apply Hn. by apply (CheckMessage_accepts req w).
    + intros [msg Hmsg]. congruence.
Qed.

(** X2. The tests are made in order and the first failure wins: the
    empty-message error is returned exactly when the message is empty,
    and the registration-ID error exactly when the message is not empty
    and the token list is. *)
Theorem CheckMessage_first_failure_wins (req : PushNotification) (w : World) :
  (result (CheckMessage req w) = Returns (Some "the message must not be empty")
   ↔ Message req = "")
  ∧ (result (CheckMessage req w)
       = Returns (Some "the message must specify at least one registration ID")
     ↔ Message req ≠ "" ∧ Tokens req = []).
Proof.
  unfold CheckMessage.
  destruct (Message req =? "")%string eqn:Hm.
  { apply String.eqb_eq in Hm. go_step. split; split; try done. intros [? _]. done. }
  apply String.eqb_neq in Hm.
  destruct (len (Tokens req) =? 0) eqn:H0.
  { apply Z.eqb_eq in H0. go_step.
    assert (Tokens req = []) by (destruct (Tokens req); [done | unfold len in H0; simpl in H0; lia]).
    split; split; try done. }
  apply Z.eqb_neq in H0.
  assert (Hne : Tokens req ≠ []) by (intros E; rewrite E in H0; done).
  repeat case_match; go_step;
    (split; split;
       [intros E; discriminate E | intros E; congruence
       | intros E; discriminate E | intros [_ E]; congruence]).
Qed.

(** X3. The limit of 1000 tokens and the time-to-live range bind the
    Android platform only: a notification of any other platform is
    accepted as soon as its message is not empty and its token list is
    neither empty nor a single empty token, however long the list and
    whatever the time-to-live. *)
Theorem CheckMessage_limits_are_android_only (req : PushNotification) (w : World) :
  Platform req ≠ PlatFormAndroid →
  (result (CheckMessage req w) = Returns None
   ↔ Message req ≠ "" ∧ Tokens req ≠ [] ∧ Tokens req ≠ [""]).
Proof.
  intros Hp. rewrite CheckMessage_accepts. unfold validRequest.
  split; [intros (? & ? & ? & _); done|].
  intros (? & ? & ?). repeat split; try done; intros E; done.
Qed.

Lemma CheckMessage_limits_are_android_only_witness :
  result (CheckMessage
            (withTimeToLive 9999999 (notice (replicate 1500 "t") PlatFormIos "hello" "default"))
            readyWorld) = Returns None.
Proof.
  apply (CheckMessage_limits_are_android_only
           (withTimeToLive 9999999 (notice (replicate 1500 "t") PlatFormIos "hello" "default"))
           readyWorld).
  - discriminate.
  - repeat split; discriminate.
Defined.

(** X4. The validator changes the state only to record its verdict: a
    rejection appends the returned message, and nothing else, to the
    access log; an acceptance leaves the state as it was. *)
Theorem CheckMessage_logs_its_verdict (req : PushNotification) (w : World) :
  final (CheckMessage req w)
    = match result (CheckMessage req w) with
      | Returns (Some msg) => set_accessLog (accessLog w ++ [msg]) w
      | _ => w
      end.
Proof. unfold CheckMessage. repeat case_match; go_step; congruence. Qed.

(** ** The connection registry, in full *)

Section RegistryMore.

Context {env : Environment}.

(** Construction leaves the queue, the access log and both networks
    alone. *)
Lemma initAPNSClient_untouched (id : string) (w : World) :
  let w' := final (initAPNSClient id w) in
  QueueNotification w' = QueueNotification w ∧ gcmCalls w' = gcmCalls w ∧
  accessLog w' = accessLog w.
Proof.
  unfold initAPNSClient.
  destruct (IosEnabled (Ios (app PushConf id))); [|done].
  destruct (filepath_Ext (KeyPath (Ios (app PushConf id))) =? ".p12")%string.
  { destruct (FromP12File _ _) as [cert [e|]]; go_step; [done|].
    destruct (Production (Ios (app PushConf id))); done. }
  destruct (filepath_Ext (KeyPath (Ios (app PushConf id))) =? ".pem")%string.
  { destruct (FromPemFile _ _) as [cert [e|]]; go_step; [done|].
    destruct (Production (Ios (app PushConf id))); done. }
  done.
Qed.

(** A lookup leaves the queue, the counters, the delivery log, the access
    log and both networks alone. *)
Lemma GetAPNSClient_untouched (id : string) (w : World) :
  let w' := final (GetAPNSClient id w) in
  QueueNotification w' = QueueNotification w ∧ StatStorage w' = StatStorage w ∧
  pushLog w' = pushLog w ∧ apnsCalls w' = apnsCalls w ∧ gcmCalls w' = gcmCalls w ∧
  accessLog w' = accessLog w.
Proof.
  destruct (initAPNSClient_outcome id w) as (c & e & Hr & _ & _ & Hc & Ha & Hs & Hp).
  destruct (initAPNSClient_untouched id w) as (Hq & Hg & Hl).
  unfold GetAPNSClient, lookupClient, mbind, go_bind, gets, mret, go_ret, storeClient.
  unfold result, final in *.
  destruct (apnsClients w) as [m|] eqn:Hm; [destruct (m !! id) as [client|] eqn:Hid|];
    cbn beta iota; rewrite ?Hm, ?Hid; cbn beta iota; [done| |].
  all: destruct (initAPNSClient id w) as [o w1]; simpl in *; subst o;
       rewrite Hc; simpl; done.
Qed.

(** X5. For an application with iOS enabled whose key path ends in
    neither .p12 nor .pem, construction reports the wrong-extension
    error and no client, writes one line to the error log, and does
    nothing else: no decoder is consulted and the shared certificate is
    left as it was. *)
Theorem initAPNSClient_unknown_extension (id : string) (w : World) :
  IosEnabled (Ios (app PushConf id)) = true →
  filepath_Ext (KeyPath (Ios (app PushConf id))) ≠ ".p12" →
  filepath_Ext (KeyPath (Ios (app PushConf id))) ≠ ".pem" →
  initAPNSClient id w =
    (Returns (None, Some "Wrong Certificate key extension."),
     set_errorLog (errorLog w ++ ["Cert Error:Wrong Certificate key extension."]) w).
Proof.
  intros Hen Hp12 Hpem. apply String.eqb_neq in Hp12, Hpem.
  unfold initAPNSClient. rewrite Hen, Hp12, Hpem. reflexivity.
Qed.

(** X6. For an application with iOS enabled whose key path ends in .p12
    or .pem, construction decodes the file with the decoder of that
    extension. When the decoder reports no error the client is bound to
    the decoded certificate and to the production host exactly when the
    application is configured for production; when it reports an error
    that error is returned with no client. In both cases the shared
    certificate is overwritten with what the decoder returned. *)
Theorem initAPNSClient_decodes (id : string) (w : World)
    (cert : Certificate) (err : error) :
  let ios := Ios (app PushConf id) in
  IosEnabled ios = true →
  filepath_Ext (KeyPath ios) = ".p12" ∨ filepath_Ext (KeyPath ios) = ".pem" →
  decoderFor (KeyPath ios) (KeyPath ios) (Password ios) = (cert, err) →
  result (initAPNSClient id w) =
    Returns (match err with
             | None => Some (mkClient cert (if Production ios then HostProduction
                                            else HostDevelopment))
             | Some _ => None
             end, err)
  ∧ CertificatePemIos (final (initAPNSClient id w)) = cert.
Proof.
  intros ios Hen Hext Hdec. subst ios. unfold decoderFor in Hdec.
  unfold initAPNSClient. rewrite Hen.
  destruct (filepath_Ext (KeyPath (Ios (app PushConf id))) =? ".p12")%string eqn:Hp12.
  - rewrite Hdec. destruct err as [e|]; go_step; [done|].
    destruct (Production (Ios (app PushConf id))); done.
  - assert (Hpem : (filepath_Ext (KeyPath (Ios (app PushConf id))) =? ".pem")%string = true).
    { destruct Hext as [E|E]; rewrite E in *; [discriminate Hp12 | reflexivity]. }
    rewrite Hpem, Hdec. destruct err as [e|]; go_step; [done|].
    destruct (Production (Ios (app PushConf id))); done.
Qed.

(** X7. A client the registry has handed out is reused: after a lookup
    that returned a client, the next lookup for the same application
    returns that client with no error and changes nothing, so nothing is
    constructed a second time. *)
Theorem GetAPNSClient_reuses_client (id : string) (w : World)
    (client : Client) (err : error) :
  result (GetAPNSClient id w) = Returns (Some client, err) →
  let w1 := final (GetAPNSClient id w) in
  GetAPNSClient id w1 = (Returns (Some client, None), w1).
Proof.
  intros Hres w1. subst w1.
  destruct (apnsClients w) as [m|] eqn:Hm.
  2: { rewrite GetAPNSClient_nil_map in Hres; done. }
  destruct (m !! id) as [c|] eqn:Hid.
  { rewrite (GetAPNSClient_hit id w m c Hm Hid) in Hres |- *.
    injection Hres as -> _. apply (GetAPNSClient_hit id w m _ Hm Hid). }
  destruct (initAPNSClient_outcome id w) as (c & e' & Hr & _).
  rewrite (GetAPNSClient_miss id w m c e' Hm Hid Hr) in Hres |- *.
  unfold result, final in Hres |- *. simpl in Hres |- *.
  injection Hres as -> ->.
  eapply GetAPNSClient_hit; [reflexivity|]. apply lookup_insert_eq.
Qed.

(** X8. A lookup in an allocated registry leaves the key present, keeps
    the entries of all other applications, and keeps the entry of its
    own application when there was one: entries are added, never
    replaced or removed. *)
Theorem GetAPNSClient_only_adds_its_key (id : string) (w : World)
    (m : gmap string (option Client)) :
  apnsClients w = Some m →
  ∃ m', apnsClients (final (GetAPNSClient id w)) = Some m' ∧
        is_Some (m' !! id) ∧
        (∀ id', id' ≠ id → m' !! id' = m !! id') ∧
        (is_Some (m !! id) → m' = m).
Proof.
  intros Hm. destruct (m !! id) as [c|] eqn:Hid.
  - rewrite (GetAPNSClient_hit id w m c Hm Hid). exists m. simpl.
    rewrite Hid. repeat split; eauto.
  - destruct (initAPNSClient_outcome id w) as (c & e & Hr & _).
    rewrite (GetAPNSClient_miss id w m c e Hm Hid Hr).
    exists (<[id := c]> m). simpl. rewrite lookup_insert_eq.
    repeat split; eauto.
    + intros id' Hne. by rewrite lookup_insert_ne.
    + intros [? ?]. done.
Qed.

End RegistryMore.

Lemma initAPNSClient_unknown_extension_witness :
  result (initAPNSClient (env := envBadKey) "default" readyWorld)
    = Returns (None, Some "Wrong Certificate key extension.").
Proof.
  rewrite (initAPNSClient_unknown_extension (env := envBadKey) "default" readyWorld);
    [reflexivity | reflexivity | discriminate | discriminate].
Defined.

Lemma initAPNSClient_decodes_witness :
  result (initAPNSClient (env := envDelivering) "default" readyWorld)
    = Returns (Some (mkClient (mkCertificate "PEM") HostProduction), None).
Proof.
  apply (initAPNSClient_decodes (env := envDelivering) "default" readyWorld
           (mkCertificate "PEM") None);
    [reflexivity | right; reflexivity | reflexivity].
Defined.

Lemma GetAPNSClient_reuses_client_witness :
  GetAPNSClient (env := envDelivering) "default"
    (final (GetAPNSClient (env := envDelivering) "default" readyWorld))
  = (Returns (Some (mkClient (mkCertificate "PEM") HostProduction), None),
     final (GetAPNSClient (env := envDelivering) "default" readyWorld)).
Proof.
  apply (GetAPNSClient_reuses_client (env := envDelivering) "default" readyWorld
           (mkClient (mkCertificate "PEM") HostProduction) None).
  reflexivity.
Defined.

Lemma GetAPNSClient_only_adds_its_key_witness :
  ∃ m', apnsClients (final (GetAPNSClient (env := envDelivering) "default" readyWorld))
          = Some m' ∧
        is_Some (m' !! "default") ∧
        (∀ id', id' ≠ "default" → m' !! id' = (∅ : gmap string (option Client)) !! id') ∧
        (is_Some ((∅ : gmap string (option Client)) !! "default") → m' = ∅).
Proof.
  apply (GetAPNSClient_only_adds_its_key (env := envDelivering) "default" readyWorld ∅).
  reflexivity.
Defined.

(** ** The iOS dispatcher, in full *)

Section IosMore.

Context {env : Environment}.

(** Construction commutes with a change of the access log. *)
Lemma initAPNSClient_accessLog (id : string) (l : list string) (w : World) :
  initAPNSClient id (set_accessLog l w)
  = (result (initAPNSClient id w), set_accessLog l (final (initAPNSClient id w))).
Proof.
  unfold initAPNSClient.
  destruct (IosEnabled (Ios (app PushConf id))); [|done].
  destruct (filepath_Ext (KeyPath (Ios (app PushConf id))) =? ".p12")%string.
  { destruct (FromP12File (KeyPath (Ios (app PushConf id)))
                (Password (Ios (app PushConf id)))) as [cert [e|]]; go_step; [done|].
    destruct (Production (Ios (app PushConf id))); done. }
  destruct (filepath_Ext (KeyPath (Ios (app PushConf id))) =? ".pem")%string.
  { destruct (FromPemFile (KeyPath (Ios (app PushConf id)))
                (Password (Ios (app PushConf id)))) as [cert [e|]]; go_step; [done|].
    destruct (Production (Ios (app PushConf id))); done. }
  done.
Qed.

(** What a lookup returns does not depend on the access log. *)
Lemma GetAPNSClient_accessLog (id : string) (l : list string) (w : World) :
  result (GetAPNSClient id (set_accessLog l w)) = result (GetAPNSClient id w).
Proof.
  destruct (initAPNSClient_outcome id w) as (c & e & Hr & _ & _ & Hc & _).
  assert (Ha : apnsClients (set_accessLog l w) = apnsClients w) by reflexivity.
  unfold GetAPNSClient, lookupClient, mbind, go_bind, gets, mret, go_ret, storeClient.
  rewrite Ha.
  destruct (apnsClients w) as [m|] eqn:Hm; [destruct (m !! id) as [client|] eqn:Hid|];
    cbn beta iota; rewrite ?Ha, ?Hm, ?Hid; cbn beta iota; [done| |].
  all: rewrite initAPNSClient_accessLog; unfold result, final in *;
       destruct (initAPNSClient id w) as [o w1]; simpl in *; subst o;
       simpl; rewrite ?Hc; simpl; rewrite ?Hc; done.
Qed.

(** With a client, the token loop writes one record per token, in
    order, and leaves the queue, the other logs, the accepted total, the
    Android counters and the GCM network alone. *)
Lemma pushTokens_log (apnsClient : Client) (req : PushNotification)
    (tokens : list string) :
  ∀ (notification : apns_Notification) (isError : bool) (w : World),
    let r := pushTokens (Some apnsClient) req notification tokens isError w in
    let answers := pushAnswers (apnsCalls w) (Some apnsClient) notification tokens in
    pushLog (final r) = (pushLog w ++ zip_with (tokenRecord req) tokens answers)%list ∧
    QueueNotification (final r) = QueueNotification w ∧
    gcmCalls (final r) = gcmCalls w ∧
    errorLog (final r) = errorLog w ∧
    accessLog (final r) = accessLog w ∧
    TotalCount (StatStorage (final r)) = TotalCount (StatStorage w) ∧
    AndroidSuccess (StatStorage (final r)) = AndroidSuccess (StatStorage w) ∧
    AndroidError (StatStorage (final r)) = AndroidError (StatStorage w).
Proof.
  induction tokens as [|token rest IH]; intros notification isError w.
  - simpl. go_step. rewrite app_nil_r. done.
  - simpl. unfold mbind, go_bind, client_Push. cbn beta iota.
    set (n := setDeviceToken token notification).
    unfold tokenRecord at 1.
    destruct (apnsNetwork (apnsCalls w) (Some apnsClient) n) as [e|res] eqn:Hans.
    + unfold LogPush, AddIosError, modify. cbn beta iota.
      match goal with
      | |- context [pushTokens (Some apnsClient) req n rest true ?w'] =>
          destruct (IH n true w') as (Hl & Hq & Hg & He & Ha & Ht & Hs & Hf)
      end.
      simpl in Hl, Hq, Hg, He, Ha, Ht, Hs, Hf. simpl.
      rewrite Hl, Hq, Hg, He, Ha, Ht, Hs, Hf. rewrite <- app_assoc. done.
    + unfold response_Sent.
      destruct (StatusCode res =? 200) eqn:Hcode; cbn [negb]; cbn beta iota.
      * unfold LogPush, AddIosSuccess, modify, mret, go_ret. cbn beta iota.
        match goal with
        | |- context [pushTokens (Some apnsClient) req n rest isError ?w'] =>
            destruct (IH n isError w') as (Hl & Hq & Hg & He & Ha & Ht & Hs & Hf)
        end.
        simpl in Hl, Hq, Hg, He, Ha, Ht, Hs, Hf. simpl.
        rewrite Hl, Hq, Hg, He, Ha, Ht, Hs, Hf. rewrite <- app_assoc. done.
      * unfold LogPush, AddIosError, modify. cbn beta iota.
        match goal with
        | |- context [pushTokens (Some apnsClient) req n rest isError ?w'] =>
            destruct (IH n isError w') as (Hl & Hq & Hg & He & Ha & Ht & Hs & Hf)
        end.
        simpl in Hl, Hq, Hg, He, Ha, Ht, Hs, Hf. simpl.
        rewrite Hl, Hq, Hg, He, Ha, Ht, Hs, Hf. rewrite <- app_assoc. done.
Qed.

(** With or without a client, the token loop leaves the registry, the
    queue, the accepted total, the Android counters and the GCM network
    alone. *)
Lemma pushTokens_untouched (apnsClient : option Client) (req : PushNotification)
    (tokens : list string) (notification : apns_Notification) (isError : bool)
    (w : World) :
  let r := pushTokens apnsClient req notification tokens isError w in
  apnsClients (final r) = apnsClients w ∧
  QueueNotification (final r) = QueueNotification w ∧
  gcmCalls (final r) = gcmCalls w ∧
  TotalCount (StatStorage (final r)) = TotalCount (StatStorage w) ∧
  AndroidSuccess (StatStorage (final r)) = AndroidSuccess (StatStorage w) ∧
  AndroidError (StatStorage (final r)) = AndroidError (StatStorage w).
Proof.
  destruct apnsClient as [client|].
  - destruct (pushTokens_accounting client req tokens notification isError w)
      as (_ & _ & _ & _ & Hm).
    destruct (pushTokens_log client req tokens notification isError w)
      as (_ & Hq & Hg & _ & _ & Ht & Hs & He).
    done.
  - rewrite pushTokens_nil_client. done.
Qed.

Lemma pushAnswers_length (calls : list (option Client * apns_Notification))
    (client : option Client) (tokens : list string) :
  ∀ (notification : apns_Notification),
    length (pushAnswers calls client notification tokens) = length tokens.
Proof.
  revert calls. induction tokens as [|t rest IH]; intros calls n; simpl; [done|].
  by rewrite IH.
Qed.

Lemma filter_partition_length {A : Type} (p : A → bool) (l : list A) :
  len (List.filter p l) + len (List.filter (fun a => negb (p a)) l) = len l.
Proof.
  unfold len. induction l as [|a l IH]; simpl; [done|].
  destruct (p a); simpl; lia.
Qed.

(** X9. When the registry hands out a client, one that is not nil, with
    no error, the dispatcher calls the network once per token, in order,
    each time with that client and with the one payload built from the
    request; it writes one delivery record per token, in order, failed
    or succeeded according to the network's answer; and it counts every
    token exactly once, as an iOS success or as an iOS error. (Stated
    for data without a key named aps, which the payload model does not
    cover.) *)
Theorem PushToIOS_accounts_for_every_token (req : PushNotification) (w : World)
    (client : Client) :
  Data req !! "aps" = None →
  result (GetAPNSClient (AppID req) w) = Returns (Some client, None) →
  let r := PushToIOS req w in
  let answers :=
    pushAnswers (apnsCalls w) (Some client) (GetIOSNotification req) (Tokens req) in
  apnsCalls (final r) =
    (apnsCalls w
       ++ map (fun t => (Some client, setDeviceToken t (GetIOSNotification req)))
              (Tokens req))%list
  ∧ pushLog (final r) = (pushLog w ++ zip_with (tokenRecord req) (Tokens req) answers)%list
  ∧ IosSuccess (StatStorage (final r)) + IosError (StatStorage (final r))
    = IosSuccess (StatStorage w) + IosError (StatStorage w) + len (Tokens req).
Proof.
  intros _ Hget r answers. subst r answers.
  set (w0 := set_accessLog (accessLog w ++ ["Start push notification for iOS"]) w).
  assert (Hget0 : result (GetAPNSClient (AppID req) w0) = Returns (Some client, None))
    by (unfold w0; rewrite GetAPNSClient_accessLog; exact Hget).
  rewrite (PushToIOS_dispatch req w (Some client) Hget0). fold w0.
  destruct (GetAPNSClient_untouched (AppID req) w0) as (_ & Hs & Hp & Hc & _).
  set (w1 := final (GetAPNSClient (AppID req) w0)) in *.
  destruct (pushTokens_accounting client req (Tokens req) (GetIOSNotification req)
              false w1) as (_ & Hcalls & Herr & Hsucc & _).
  destruct (pushTokens_log client req (Tokens req) (GetIOSNotification req) false w1)
    as (Hlog & _).
  cbv zeta in Hcalls, Herr, Hsucc, Hlog.
  rewrite Hcalls, Hlog, Herr, Hsucc, Hc, Hs, Hp. simpl.
  repeat split; try done.
  pose proof (filter_partition_length deliveryFailed
                (pushAnswers (apnsCalls w) (Some client) (GetIOSNotification req)
                   (Tokens req)))
    as Hpart.
  unfold len in Hpart |- *. rewrite pushAnswers_length in Hpart. lia.
Qed.

(** X10. When the registry reports an error, the dispatcher logs the
    whole notification as failed once, with an empty token and that
    error, returns true, and attempts no token: the network is not
    called and no counter moves. (Stated for data without a key named
    aps, which the payload model does not cover.) *)
Theorem PushToIOS_without_client (req : PushNotification) (w : World)
    (client : option Client) (e : string) :
  Data req !! "aps" = None →
  result (GetAPNSClient (AppID req) w) = Returns (client, Some e) →
  let r := PushToIOS req w in
  result r = Returns true
  ∧ pushLog (final r) = (pushLog w ++ [mkPushLog FailedPush "" req (Some e)])%list
  ∧ apnsCalls (final r) = apnsCalls w
  ∧ StatStorage (final r) = StatStorage w.
Proof.
  intros _ Hget r. subst r.
  set (w0 := set_accessLog (accessLog w ++ ["Start push notification for iOS"]) w).
  assert (Hget0 : result (GetAPNSClient (AppID req) w0) = Returns (client, Some e))
    by (unfold w0; rewrite GetAPNSClient_accessLog; exact Hget).
  rewrite (PushToIOS_no_client req w client e Hget0). fold w0.
  destruct (GetAPNSClient_untouched (AppID req) w0) as (_ & Hs & Hp & Hc & _).
  simpl. rewrite Hs, Hp, Hc. done.
Qed.


End IosMore.

Lemma PushToIOS_accounts_for_every_token_witness :
  IosSuccess (StatStorage (final (PushToIOS (env := envDelivering)
                                    (notice ["a"; "b"] PlatFormIos "hello" "default")
                                    readyWorld)))
  + IosError (StatStorage (final (PushToIOS (env := envDelivering)
                                    (notice ["a"; "b"] PlatFormIos "hello" "default")
                                    readyWorld)))
  = 2.
Proof.
  destruct (PushToIOS_accounts_for_every_token (env := envDelivering)
              (notice ["a"; "b"] PlatFormIos "hello" "default") readyWorld
              (mkClient (mkCertificate "PEM") HostProduction))
    as (_ & _ & Hcount); [reflexivity | reflexivity |].
  exact Hcount.
Defined.

Lemma PushToIOS_without_client_witness :
  result (PushToIOS (env := envBadKey)
            (notice ["a"; "b"] PlatFormIos "hello" "default") readyWorld) = Returns true
  ∧ apnsCalls (final (PushToIOS (env := envBadKey)
                        (notice ["a"; "b"] PlatFormIos "hello" "default") readyWorld)) = [].
Proof.
  destruct (PushToIOS_without_client (env := envBadKey)
              (notice ["a"; "b"] PlatFormIos "hello" "default") readyWorld
              None "Wrong Certificate key extension.")
    as (Hr & _ & Hc & _); [reflexivity | reflexivity |].
  split; [exact Hr | exact Hc].
Defined.


(** ** The Android dispatcher, in full *)

Section AndroidMore.

Context {env : Environment}.

(** The result loop writes one record per result that has a token at its
    position, and touches nothing but the delivery log; it returns when
    every result has a token and panics otherwise. *)
Lemma logResults_log (req : PushNotification) (results : list gcm_Result) :
  ∀ (k : nat) (w : World),
    (k ≤ length (Tokens req))%nat →
    let r := logResults req k results w in
    final r = set_pushLog (pushLog w
                ++ zip_with (resultRecord req) (drop k (Tokens req)) results) w
    ∧ result r = (if decide (k + length results ≤ length (Tokens req))%nat
                  then Returns tt else Panics "index out of range").
Proof.
  induction results as [|res rest IH]; intros k w Hk.
  - simpl. rewrite zip_with_nil_r, app_nil_r. go_step.
    rewrite decide_True by lia. split; [by destruct w | done].
  - cbn [logResults].
    destruct (Tokens req !! k) as [t|] eqn:Hlk.
    + apply lookup_lt_Some in Hlk as Hlt.
      rewrite (drop_S _ t k Hlk). cbn [zip_with].
      unfold mbind, go_bind, resultRecord at 1.
      destruct (negb (ResultError res =? "")%string); unfold LogPush, modify, errors_New;
        cbn beta iota.
      all: match goal with
           | |- context [logResults _ (S _) _ ?w'] =>
               destruct (IH (S k) w' ltac:(lia)) as (Hf & Hr)
           end;
           unfold result, final in *;
           destruct (logResults req (S k) rest _) as [o w2]; simpl in *; subst o w2;
           rewrite <- app_assoc; simpl;
           (split; [done|]);
           destruct (decide (S (k + length rest) ≤ length (Tokens req))%nat);
           [rewrite decide_True by lia | rewrite decide_False by lia]; done.
    + apply lookup_ge_None in Hlk. assert (k = length (Tokens req)) as -> by lia.
      rewrite drop_all. simpl. rewrite app_nil_r. unfold panic, result, final. simpl.
      rewrite decide_False by lia. split; [by destruct w | done].
Qed.

(** The dispatcher's whole effect on a completed call. *)
Lemma PushToAndroid_completed (req : PushNotification) (w : World)
    (res : gcm_HttpResponse) :
  result (CheckMessage req w) = Returns None →
  gcmNetwork (gcmCalls w) (APIKey req) (GetAndroidNotification req) = SendResponse res →
  let r := PushToAndroid req w in
  result r = (if decide (length (Results res) ≤ length (Tokens req))%nat
              then Returns true else Panics "index out of range")
  ∧ pushLog (final r)
    = (pushLog w ++ zip_with (resultRecord req) (Tokens req) (Results res))%list
  ∧ StatStorage (final r)
    = mkStat (TotalCount (StatStorage w)) (IosSuccess (StatStorage w))
             (IosError (StatStorage w))
             (AndroidSuccess (StatStorage w) + Success res)
             (AndroidError (StatStorage w) + Failure res).
Proof.
  intros Hc Hans. unfold PushToAndroid.
  set (w1 := set_accessLog (accessLog w ++ ["Start push notification for Android"]) w).
  rewrite (CheckMessage_world req w w1) in Hc.
  pose proof (CheckMessage_frame req w1) as Hf.
  unfold result, final, mbind, go_bind, LogAccess_Debug, modify in *. fold w1.
  destruct (CheckMessage req w1) as [o w2]. simpl in *. subst o.
  destruct Hf as (_ & _ & Hs & Hp & _ & _ & Hg).
  unfold gcm_SendHttp. rewrite Hg, Hans. simpl.
  unfold AddAndroidSuccess, AddAndroidError, modify, mret, go_ret. simpl.
  match goal with
  | |- context [logResults req 0 (Results res) ?w'] =>
      destruct (logResults_log req (Results res) 0 w' ltac:(lia)) as (Hfin & Hres)
  end.
  unfold result, final in Hfin, Hres. simpl in Hfin, Hres.
  destruct (logResults req 0 (Results res) _) as [o w3]. simpl in *. subst o w3.
  rewrite Hs, Hp.
  destruct (decide (length (Results res) ≤ length (Tokens req))%nat); simpl; done.
Qed.

(** The calls the dispatcher adds, by the validator's verdict. *)
Lemma PushToAndroid_calls (req : PushNotification) (w : World) :
  gcmCalls (final (PushToAndroid req w))
  = (gcmCalls w
       ++ match result (CheckMessage req w) with
          | Returns None => [(APIKey req, GetAndroidNotification req)]
          | _ => []
          end)%list.
Proof.
  destruct (CheckMessage_returns req w) as [[msg|] Hr]; rewrite Hr.
  - destruct (PushToAndroid_invalid req w msg Hr) as (_ & Hg & _).
    rewrite Hg, app_nil_r. done.
  - destruct (PushToAndroid_valid req w Hr) as [Hg _]. exact Hg.
Qed.

(** X12. The dispatcher calls the network at most once for a
    notification, whatever its number of tokens: exactly once when the
    validator accepts it, with the API key of the request and the one
    batch message built from it, whatever the network answers; and not
    at all when the validator rejects it. *)
Theorem PushToAndroid_one_batch_call (req : PushNotification) (w : World) :
  (validRequest req →
   gcmCalls (final (PushToAndroid req w))
   = (gcmCalls w ++ [(APIKey req, GetAndroidNotification req)])%list)
  ∧ (¬ validRequest req →
     gcmCalls (final (PushToAndroid req w)) = gcmCalls w).
Proof.
  rewrite PushToAndroid_calls. split.
  - intros Hv. apply (CheckMessage_accepts req w) in Hv. rewrite Hv. done.
  - intros Hn. destruct (CheckMessage_returns req w) as [[msg|] Hr]; rewrite Hr.
    + apply app_nil_r.
    + exfalso. apply Hn. by apply (CheckMessage_accepts req w).
Qed.

(** X13. On a completed call the Android counters grow by the aggregate
    success and failure counts the response reports, whatever its result
    list says; the other counters do not move; and one delivery record
    is written per result, for the token at the same position of the
    token list, failed when the result carries an error and succeeded
    otherwise. *)
Theorem PushToAndroid_counts_and_logs (req : PushNotification) (w : World)
    (res : gcm_HttpResponse) :
  result (CheckMessage req w) = Returns None →
  gcmNetwork (gcmCalls w) (APIKey req) (GetAndroidNotification req) = SendResponse res →
  let r := PushToAndroid req w in
  AndroidSuccess (StatStorage (final r)) = AndroidSuccess (StatStorage w) + Success res
  ∧ AndroidError (StatStorage (final r)) = AndroidError (StatStorage w) + Failure res
  ∧ IosSuccess (StatStorage (final r)) = IosSuccess (StatStorage w)
  ∧ IosError (StatStorage (final r)) = IosError (StatStorage w)
  ∧ TotalCount (StatStorage (final r)) = TotalCount (StatStorage w)
  ∧ pushLog (final r)
    = (pushLog w ++ zip_with (resultRecord req) (Tokens req) (Results res))%list.
Proof.
  intros Hc Hans r. subst r.
  destruct (PushToAndroid_completed req w res Hc Hans) as (_ & Hl & Hs).
  rewrite Hs, Hl. done.
Qed.

(** X14. A response that carries more results than the notification has
    tokens makes the dispatcher panic with an index out of range, after
    the counters have been updated and a record has been written for
    every token. *)
Theorem PushToAndroid_more_results_than_tokens (req : PushNotification) (w : World)
    (res : gcm_HttpResponse) :
  result (CheckMessage req w) = Returns None →
  gcmNetwork (gcmCalls w) (APIKey req) (GetAndroidNotification req) = SendResponse res →
  (length (Tokens req) < length (Results res))%nat →
  let r := PushToAndroid req w in
  result r = Panics "index out of range"
  ∧ AndroidSuccess (StatStorage (final r)) = AndroidSuccess (StatStorage w) + Success res
  ∧ AndroidError (StatStorage (final r)) = AndroidError (StatStorage w) + Failure res
  ∧ length (pushLog (final r)) = (length (pushLog w) + length (Tokens req))%nat.
Proof.
  intros Hc Hans Hlen r. subst r.
  destruct (PushToAndroid_completed req w res Hc Hans) as (Hr & Hl & Hs).
  rewrite Hr, Hl, Hs. rewrite decide_False by lia.
  rewrite length_app, length_zip_with. simpl. repeat split; try done. lia.
Qed.

(** X15. Every batch message the dispatcher sends for a notification of
    the Android platform is within the limits of the delivery network:
    it carries between one and 1000 registration IDs, a time-to-live of
    at most four weeks when it has one, and a notification with a
    non-empty body. *)
Theorem PushToAndroid_sends_within_limits (req : PushNotification) (w : World) :
  Platform req = PlatFormAndroid →
  ∀ call, call ∈ gcmCalls (final (PushToAndroid req w)) →
          call ∈ gcmCalls w ∨ withinGcmLimits (snd call).
Proof.
  intros Hp call Hin. rewrite PushToAndroid_calls in Hin.
  apply elem_of_app in Hin as [Hin|Hin]; [by left|].
  destruct (result (CheckMessage req w)) as [[msg|]|] eqn:Hr;
    try (apply elem_of_nil in Hin; done).
  apply list_elem_of_singleton in Hin. subst call. right.
  apply CheckMessage_accepts in Hr as (Hm & Hne & _ & Hlim).
  destruct (Hlim Hp) as [Hn Httl].
  unfold withinGcmLimits, GetAndroidNotification. simpl. split; [|split].
  - split; [|done]. destruct (Tokens req); [done|]. unfold len. simpl. lia.
  - exact Httl.
  - eexists. split; [reflexivity|].
    destruct (slen (gcmBody (Notification req)) =? 0) eqn:Hb.
    + destruct (0 <? slen (Title req)), (0 <? slen (Sound req)); simpl; done.
    + assert (gcmBody (Notification req) ≠ "") by (intros E; rewrite E in Hb; done).
      destruct (0 <? slen (Title req)), (0 <? slen (Sound req)); simpl; done.
Qed.

End AndroidMore.

Lemma PushToAndroid_counts_and_logs_witness :
  AndroidSuccess (StatStorage (final (PushToAndroid (env := envDelivering)
                     (notice ["a"; "b"] PlatFormAndroid "hello" "default") readyWorld))) = 1
  ∧ AndroidError (StatStorage (final (PushToAndroid (env := envDelivering)
                     (notice ["a"; "b"] PlatFormAndroid "hello" "default") readyWorld))) = 1
  ∧ map logToken (pushLog (final (PushToAndroid (env := envDelivering)
                     (notice ["a"; "b"] PlatFormAndroid "hello" "default") readyWorld)))
    = ["a"; "b"].
Proof.
  destruct (PushToAndroid_counts_and_logs (env := envDelivering)
              (notice ["a"; "b"] PlatFormAndroid "hello" "default") readyWorld
              (mkHttpResponse 1 1 [mkGcmResult "m1" "" ""; mkGcmResult "" "" "NotRegistered"]))
    as (Hs & He & _ & _ & _ & Hl); [reflexivity | reflexivity |].
  split; [exact Hs | split; [exact He |]]. rewrite Hl. reflexivity.
Defined.

Lemma PushToAndroid_more_results_than_tokens_witness :
  result (PushToAndroid (env := envDelivering)
            (notice ["a"] PlatFormAndroid "hello" "default") readyWorld)
    = Panics "index out of range".
Proof.
  destruct (PushToAndroid_more_results_than_tokens (env := envDelivering)
              (notice ["a"] PlatFormAndroid "hello" "default") readyWorld
              (mkHttpResponse 1 1 [mkGcmResult "m1" "" ""; mkGcmResult "" "" "NotRegistered"]))
    as (Hr & _); [reflexivity | reflexivity | simpl; lia |].
  exact Hr.
Defined.

Lemma PushToAndroid_sends_within_limits_witness :
  withinGcmLimits
    (GetAndroidNotification (notice ["a"; "b"] PlatFormAndroid "hello" "default")).
Proof.
  destruct (PushToAndroid_sends_within_limits (env := envDelivering)
              (notice ["a"; "b"] PlatFormAndroid "hello" "default") readyWorld
              eq_refl
              ("", GetAndroidNotification (notice ["a"; "b"] PlatFormAndroid "hello" "default")))
    as [Hold|Hnew].
  - rewrite (PushToAndroid_calls (env := envDelivering)). simpl.
    apply list_elem_of_singleton. reflexivity.
  - apply elem_of_nil in Hold. destruct Hold.
  - exact Hnew.
Defined.

Lemma PushToAndroid_one_batch_call_witness :
  gcmCalls (final (PushToAndroid (env := envDelivering)
                     (notice (replicate 3 "t") PlatFormAndroid "hello" "default") readyWorld))
  = [("", GetAndroidNotification (notice (replicate 3 "t") PlatFormAndroid "hello" "default"))]
  ∧ gcmCalls (final (PushToAndroid (env := envDelivering)
                       (notice (replicate 1001 "t") PlatFormAndroid "hello" "default")
                       readyWorld)) = [].
Proof.
  split.
  - destruct (PushToAndroid_one_batch_call (env := envDelivering)
                (notice (replicate 3 "t") PlatFormAndroid "hello" "default") readyWorld)
      as [Hvalid _].
    apply Hvalid. split; [discriminate|]. split; [discriminate|]. split; [discriminate|].
    intros _. split; [vm_compute; discriminate | exact I].
  - destruct (PushToAndroid_one_batch_call (env := envDelivering)
                (notice (replicate 1001 "t") PlatFormAndroid "hello" "default") readyWorld)
      as [_ Hinvalid].
    apply Hinvalid. intros (_ & _ & _ & Hlim). destruct (Hlim eq_refl) as [Hn _].
    vm_compute in Hn. apply Hn. reflexivity.
Defined.

(** ** The dispatch queue, in full *)

Lemma World_eq (w w' : World) :
  apnsClients w = apnsClients w' → CertificatePemIos w = CertificatePemIos w' →
  QueueNotification w = QueueNotification w' → StatStorage w = StatStorage w' →
  pushLog w = pushLog w' → errorLog w = errorLog w' → accessLog w = accessLog w' →
  apnsCalls w = apnsCalls w' → gcmCalls w = gcmCalls w' →
  w = w'.
Proof. destruct w, w'. simpl. intros. by subst. Qed.

Lemma resolved_names_app (n : PushNotification) : AppID (resolved n) ≠ "".
Proof.
  unfold resolved. destruct (AppID n =? "")%string eqn:E; [done|].
  by apply String.eqb_neq.
Qed.

Lemma tokenTotal_count (keep : PushNotification → bool) (ns : list PushNotification) :
  tokenTotal keep ns = tokenCount (map resolved (filter (fun n => keep n = true) ns)).
Proof.
  unfold tokenTotal, tokenCount.
  induction (filter (fun n => keep n = true) ns) as [|n l IH]; simpl; [done|].
  by rewrite IH, Tokens_resolved.
Qed.

Section QueueMore.

Context {env : Environment}.

(** The state the loop ends in: the admitted notifications appended to
    the queue, one line appended to the error log per notification of an
    unknown application, nothing else. *)
Lemma queueLoop_final (ns : list PushNotification) :
  ∀ (count : Z) (w : World),
    final (queueLoop ns count w)
    = set_errorLog
        (errorLog w
           ++ map unknownAppLine (filter (fun n => appKnown PushConf n = false) ns))
        (set_QueueNotification
           (QueueNotification w
              ++ map resolved (filter (fun n => admitted PushConf n = true) ns)) w).
Proof.
  induction ns as [|n rest IH]; intros count w.
  - simpl. rewrite !app_nil_r. unfold final. simpl. by destruct w.
  - cbn [queueLoop]. fold (resolved n). rewrite !filter_cons.
    destruct (Apps PushConf !! AppID (resolved n)) as [a|] eqn:Happ.
    + assert (Hk : appKnown PushConf n = true) by (unfold appKnown; by rewrite Happ).
      assert (Ha : app PushConf (AppID (resolved n)) = a)
        by (unfold app; rewrite Happ; reflexivity).
      assert (Hadm : admitted PushConf n =
                if Platform n =? PlatFormIos then IosEnabled (Ios a)
                else if Platform n =? PlatFormAndroid
                     then AndroidEnabled (Android a) else true)
        by (unfold admitted; rewrite Happ; reflexivity).
      rewrite Hk, Hadm, Ha, Platform_resolved. rewrite (decide_False (P := true = false)) by done.
      assert (Hsend : ∀ c,
        final ((enqueue (resolved n) ;; queueLoop rest c) w)
        = set_errorLog
            (errorLog w
               ++ map unknownAppLine (filter (fun n => appKnown PushConf n = false) rest))
            (set_QueueNotification
               (QueueNotification w
                  ++ map resolved
                       (n :: filter (fun n => admitted PushConf n = true) rest)) w)).
      { intros c. unfold mbind, go_bind, enqueue, modify. cbn beta iota.
        rewrite IH. simpl. rewrite <- app_assoc. done. }
      destruct (Platform n =? PlatFormIos).
      { destruct (IosEnabled (Ios a)); cbn [negb]; cbn iota.
        - rewrite decide_True by done. apply Hsend.
        - rewrite decide_False by done. apply IH. }
      destruct (Platform n =? PlatFormAndroid).
      { destruct (AndroidEnabled (Android a)); cbn [negb]; cbn iota.
        - rewrite decide_True by done. apply Hsend.
        - rewrite decide_False by done. apply IH. }
      rewrite decide_True by done. apply Hsend.
    + assert (Hk : appKnown PushConf n = false) by (unfold appKnown; by rewrite Happ).
      assert (Hadm : admitted PushConf n = false)
        by (unfold admitted; rewrite Happ; reflexivity).
      rewrite Hk, Hadm. rewrite decide_True by done.
      rewrite (decide_False (P := false = true)) by done.
      unfold mbind, go_bind, LogError_Error, modify. cbn beta iota.
      rewrite IH. simpl. rewrite <- app_assoc. done.
Qed.

(** The state [queueNotification] ends in. *)
Lemma queueNotification_final (req : RequestPush) (w : World) :
  final (queueNotification req w)
  = set_StatStorage
      (mkStat (TotalCount (StatStorage w)
                 + tokenTotal (admitted PushConf) (Notifications req))
              (IosSuccess (StatStorage w)) (IosError (StatStorage w))
              (AndroidSuccess (StatStorage w)) (AndroidError (StatStorage w)))
      (final (queueLoop (Notifications req) 0 w)).
Proof.
  destruct (queueLoop_spec (Notifications req) 0 w) as (Hr & _ & Hs).
  unfold queueNotification, mbind, go_bind, AddTotalCount, modify, mret, go_ret.
  unfold result, final in *.
  destruct (queueLoop (Notifications req) 0 w) as [o w1]. simpl in *. subst o.
  simpl. rewrite Hs. done.
Qed.

(** What the loop lets through is queueable. *)
Lemma admitted_queueable (n : PushNotification) :
  admitted PushConf n = true → queueable PushConf (resolved n).
Proof.
  unfold admitted, queueable. intros Hadm. split; [apply resolved_names_app|].
  destruct (Apps PushConf !! AppID (resolved n)) as [a|]; [|done].
  exists a. split; [done|]. rewrite Platform_resolved.
  split; intros Hp; rewrite Hp in Hadm; simpl in Hadm; done.
Qed.

(** X16. Whatever the request, [queueNotification] keeps what the queue
    held and appends notifications to it; the number it returns, the
    growth of the accepted total and the number of tokens of the
    notifications it appended are one and the same; and no other counter
    moves. *)
Theorem queueNotification_counts_what_it_queues (req : RequestPush) (w : World) :
  let r := queueNotification req w in
  ∃ added,
    QueueNotification (final r) = (QueueNotification w ++ added)%list
    ∧ result r = Returns (tokenCount added)
    ∧ StatStorage (final r)
      = mkStat (TotalCount (StatStorage w) + tokenCount added)
               (IosSuccess (StatStorage w)) (IosError (StatStorage w))
               (AndroidSuccess (StatStorage w)) (AndroidError (StatStorage w)).
Proof.
  intros r. subst r.
  exists (map resolved (filter (fun n => admitted PushConf n = true) (Notifications req))).
  destruct (queueNotification_spec req w) as (Hr & Hq & _).
  rewrite Hr, Hq, queueNotification_final, <- tokenTotal_count. done.
Qed.

(** X17. Every notification [queueNotification] puts on the queue names
    an application (the default one when the request named none) that is
    configured, and, when its platform is iOS or Android, has that
    platform enabled; so a queue that held only such notifications still
    does. *)
Theorem queueNotification_keeps_queue_eligible (req : RequestPush) (w : World) :
  Forall (queueable PushConf) (QueueNotification w) →
  Forall (queueable PushConf) (QueueNotification (final (queueNotification req w))).
Proof.
  intros Hold. destruct (queueNotification_spec req w) as (_ & Hq & _).
  rewrite Hq. apply Forall_app. split; [exact Hold|].
  apply Forall_fmap, Forall_forall. intros n Hn.
  apply list_elem_of_filter in Hn as [Hadm _]. by apply admitted_queueable.
Qed.

(** X18. [queueNotification] writes to the error log one line per
    notification whose application is not configured, in order, naming
    that application, and nothing else: a notification dropped because
    its platform is disabled leaves no line in any log. *)
Theorem queueNotification_logs_unknown_apps_only (req : RequestPush) (w : World) :
  let r := queueNotification req w in
  errorLog (final r)
    = (errorLog w
         ++ map unknownAppLine
              (filter (fun n => appKnown PushConf n = false) (Notifications req)))%list
  ∧ accessLog (final r) = accessLog w
  ∧ pushLog (final r) = pushLog w.
Proof.
  intros r. subst r. rewrite queueNotification_final, queueLoop_final. done.
Qed.

(** X19. Queueing a request in one call or in two makes no difference:
    queueing the notifications of two lists together ends in the state
    that queueing the first list and then the second ends in, and
    returns the sum of what the two calls return. *)
Theorem queueNotification_splits (ns1 ns2 : list PushNotification) (w : World) :
  let together := queueNotification (mkRequestPush (ns1 ++ ns2)) w in
  let first := queueNotification (mkRequestPush ns1) w in
  let second := queueNotification (mkRequestPush ns2) (final first) in
  final together = final second
  ∧ ∃ c1 c2, result first = Returns c1 ∧ result second = Returns c2 ∧
             result together = Returns (c1 + c2).
Proof.
  cbv zeta. split.
  - rewrite !queueNotification_final, !queueLoop_final. simpl.
    rewrite !filter_app, !map_app, !app_assoc.
    apply World_eq; simpl; try done.
    f_equal. unfold tokenTotal. rewrite filter_app, foldr_app.
    generalize (filter (fun n => admitted PushConf n = true) ns2).
    induction (filter (fun n => admitted PushConf n = true) ns1) as [|n l IH];
      intros l2; simpl; [lia|].
    specialize (IH l2). lia.
  - destruct (queueNotification_spec (mkRequestPush ns1) w) as (H1 & _).
    destruct (queueNotification_spec (mkRequestPush ns2)
                (final (queueNotification (mkRequestPush ns1) w))) as (H2 & _).
    destruct (queueNotification_spec (mkRequestPush (ns1 ++ ns2)) w) as (H3 & _).
    eexists _, _. split; [exact H1|]. split; [exact H2|]. rewrite H3. f_equal.
    simpl. unfold tokenTotal. rewrite filter_app, foldr_app.
    generalize (filter (fun n => admitted PushConf n = true) ns2).
    induction (filter (fun n => admitted PushConf n = true) ns1) as [|n l IH];
      intros l2; simpl; [lia|].
    specialize (IH l2). lia.
Qed.

End QueueMore.

Lemma queueNotification_keeps_queue_eligible_witness :
  Forall (queueable (@PushConf envAndroid))
    (QueueNotification
       (final (queueNotification (env := envAndroid)
                 (mkRequestPush [notice ["a"; "b"] PlatFormAndroid "hello" "";
                                 notice ["c"] PlatFormIos "hello" "default";
                                 notice ["d"] PlatFormAndroid "hello" "other"])
                 readyWorld))).
Proof.
  apply (queueNotification_keeps_queue_eligible (env := envAndroid)).
  apply Forall_nil. exact I.
Defined.

(** ** The dispatchers side by side, and the worker *)

Section WorkerMore.

Context {env : Environment}.

(** On every path the Android dispatcher leaves the queue, the registry,
    the APNs network, the accepted total and the iOS counters alone. *)
Lemma PushToAndroid_untouched (req : PushNotification) (w : World) :
  let w' := final (PushToAndroid req w) in
  QueueNotification w' = QueueNotification w ∧ apnsClients w' = apnsClients w ∧
  apnsCalls w' = apnsCalls w ∧
  TotalCount (StatStorage w') = TotalCount (StatStorage w) ∧
  IosSuccess (StatStorage w') = IosSuccess (StatStorage w) ∧
  IosError (StatStorage w') = IosError (StatStorage w).
Proof.
  unfold PushToAndroid.
  set (w1 := set_accessLog (accessLog w ++ ["Start push notification for Android"]) w).
  pose proof (CheckMessage_frame req w1) as Hf.
  destruct (CheckMessage_returns req w1) as [err Hr].
  unfold result, final, mbind, go_bind, LogAccess_Debug, modify in *. fold w1.
  destruct (CheckMessage req w1) as [o w2]. simpl in *. subst o.
  destruct Hf as (Hc & Hq & Hs & _ & _ & Ha & Hg).
  destruct err as [e|]; simpl.
  { rewrite Hc, Hq, Hs, Ha. done. }
  unfold gcm_SendHttp. simpl.
  destruct (gcmNetwork (gcmCalls w2) (APIKey req) (GetAndroidNotification req)) as [e|res];
    simpl.
  { rewrite Hc, Hq, Hs, Ha. done. }
  unfold AddAndroidSuccess, AddAndroidError, modify, mret, go_ret. simpl.
  match goal with
  | |- context [logResults req 0 (Results res) ?w'] =>
      destruct (logResults_log req (Results res) 0 w' ltac:(lia)) as (Hfin & _)
  end.
  unfold final in Hfin. simpl in Hfin.
  destruct (logResults req 0 (Results res) _) as [o w3]. simpl in *. subst w3.
  destruct o; simpl; rewrite Hc, Hq, Hs, Ha; done.
Qed.

(** On every path the iOS dispatcher leaves the queue, the GCM network,
    the accepted total and the Android counters alone. *)
Lemma PushToIOS_untouched (req : PushNotification) (w : World) :
  let w' := final (PushToIOS req w) in
  QueueNotification w' = QueueNotification w ∧ gcmCalls w' = gcmCalls w ∧
  TotalCount (StatStorage w') = TotalCount (StatStorage w) ∧
  AndroidSuccess (StatStorage w') = AndroidSuccess (StatStorage w) ∧
  AndroidError (StatStorage w') = AndroidError (StatStorage w).
Proof.
  unfold PushToIOS, mbind, go_bind, LogAccess_Debug, modify. cbn beta iota.
  set (w0 := set_accessLog (accessLog w ++ ["Start push notification for iOS"]) w).
  destruct (GetAPNSClient_untouched (AppID req) w0) as (Hq & Hs & _ & _ & Hg & _).
  unfold final in *.
  destruct (GetAPNSClient (AppID req) w0) as [[[client [e|]]|reason] w1]; simpl in *.
  - rewrite Hq, Hs, Hg. done.
  - destruct (pushTokens_untouched client req (Tokens req) (GetIOSNotification req)
                false w1) as (_ & Hq' & Hg' & Ht & Hsu & Her).
    unfold final in *. rewrite Hq', Hg', Ht, Hsu, Her, Hq, Hs, Hg. done.
  - rewrite Hq, Hs, Hg. done.
Qed.

(** The iOS dispatcher keeps the registry consistent with the
    configuration, whether it returns or panics. *)
Lemma PushToIOS_consistent (req : PushNotification) (w : World) :
  registryConsistent PushConf w →
  registryConsistent PushConf (final (PushToIOS req w)).
Proof.
  intros Hreg.
  set (w0 := set_accessLog (accessLog w ++ ["Start push notification for iOS"]) w).
  assert (Hreg0 : registryConsistent PushConf w0).
  { destruct Hreg as (m & Hm & Hen). exists m. done. }
  destruct (GetAPNSClient_consistent (AppID req) w0 Hreg0) as (Hreg1 & c & [e|] & Hget).
  - rewrite (PushToIOS_no_client req w c e Hget). fold w0.
    destruct Hreg1 as (m & Hm & Hen). exists m. done.
  - rewrite (PushToIOS_dispatch req w c Hget). fold w0.
    destruct (pushTokens_untouched c req (Tokens req) (GetIOSNotification req) false
                (final (GetAPNSClient (AppID req) w0))) as (Hm & _).
    destruct Hreg1 as (m & Hm1 & Hen). exists m. split; [|done]. by rewrite Hm.
Qed.

(** The switch of the worker never touches the queue. *)
Lemma dispatch_queue (n : PushNotification) (w : World) :
  QueueNotification (final (dispatch n w)) = QueueNotification w.
Proof.
  unfold dispatch.
  destruct (Platform n =? PlatFormIos).
  { destruct (PushToIOS_untouched n w) as (Hq & _).
    unfold mbind, go_bind, final in *.
    destruct (PushToIOS n w) as [[b|r] w1]; simpl in *; done. }
  destruct (Platform n =? PlatFormAndroid); [|done].
  destruct (PushToAndroid_untouched n w) as (Hq & _).
  unfold mbind, go_bind, final in *.
  destruct (PushToAndroid n w) as [[b|r] w1]; simpl in *; done.
Qed.

(** The switch of the worker keeps the registry consistent. *)
Lemma dispatch_consistent (n : PushNotification) (w : World) :
  registryConsistent PushConf w → registryConsistent PushConf (final (dispatch n w)).
Proof.
  intros Hreg. unfold dispatch.
  destruct (Platform n =? PlatFormIos).
  { pose proof (PushToIOS_consistent n w Hreg) as Hreg1.
    unfold mbind, go_bind, final in *.
    destruct (PushToIOS n w) as [[b|r] w1]; simpl in *; done. }
  destruct (Platform n =? PlatFormAndroid); [|done].
  destruct (PushToAndroid_untouched n w) as (_ & Hc & _).
  destruct Hreg as (m & Hm & Hen).
  unfold mbind, go_bind, final in *.
  destruct (PushToAndroid n w) as [[b|r] w1]; simpl in *; exists m; by rewrite Hc.
Qed.

(** X20. The registry stays consistent with the configuration: once its
    map is allocated and holds clients only for applications that have
    iOS enabled, that is still so after a lookup, after either
    dispatcher, after [queueNotification] and after any number of rounds
    of the worker, whether these return or panic; and with such a
    registry a lookup returns rather than panics. *)
Theorem registry_stays_consistent (w : World) :
  registryConsistent PushConf w →
  (∀ id, registryConsistent PushConf (final (GetAPNSClient id w)) ∧
         ∃ client err, result (GetAPNSClient id w) = Returns (client, err))
  ∧ (∀ req, registryConsistent PushConf (final (PushToIOS req w)))
  ∧ (∀ req, registryConsistent PushConf (final (PushToAndroid req w)))
  ∧ (∀ req, registryConsistent PushConf (final (queueNotification req w)))
  ∧ (∀ rounds, registryConsistent PushConf (final (startWorker rounds w))).
Proof.
  intros Hreg. split; [|split; [|split; [|split]]].
  - intros id. by apply GetAPNSClient_consistent.
  - intros req. by apply PushToIOS_consistent.
  - intros req. destruct (PushToAndroid_untouched req w) as (_ & Hc & _).
    destruct Hreg as (m & Hm & Hen). exists m. by rewrite Hc.
  - intros req. rewrite queueNotification_final, queueLoop_final.
    destruct Hreg as (m & Hm & Hen). exists m. done.
  - intros rounds. revert w Hreg.
    induction rounds as [|rounds IH]; intros w Hreg; [done|].
    cbn [startWorker]. unfold mbind, go_bind, receive.
    destruct (QueueNotification w) as [|n rest]; [done|]. cbn beta iota.
    set (w1 := set_QueueNotification rest w).
    assert (Hreg1 : registryConsistent PushConf w1).
    { destruct Hreg as (m & Hm & Hen). exists m. done. }
    pose proof (dispatch_consistent n w1 Hreg1) as Hreg2.
    unfold final in *.
    destruct (dispatch n w1) as [[[]|r] w2]; simpl in *; [|done].
    by apply IH.
Qed.

(** X21. The two dispatchers keep apart: the Android dispatcher never
    touches the registry, the APNs network or the iOS counters, the iOS
    dispatcher never touches the GCM network or the Android counters,
    and neither touches the queue or the accepted total. *)
Theorem dispatchers_keep_apart (req : PushNotification) (w : World) :
  let android := final (PushToAndroid req w) in
  let ios := final (PushToIOS req w) in
  (apnsClients android = apnsClients w ∧ apnsCalls android = apnsCalls w ∧
   IosSuccess (StatStorage android) = IosSuccess (StatStorage w) ∧
   IosError (StatStorage android) = IosError (StatStorage w))
  ∧ (gcmCalls ios = gcmCalls w ∧
     AndroidSuccess (StatStorage ios) = AndroidSuccess (StatStorage w) ∧
     AndroidError (StatStorage ios) = AndroidError (StatStorage w))
  ∧ (QueueNotification android = QueueNotification w ∧
     QueueNotification ios = QueueNotification w ∧
     TotalCount (StatStorage android) = TotalCount (StatStorage w) ∧
     TotalCount (StatStorage ios) = TotalCount (StatStorage w)).
Proof.
  cbv zeta.
  destruct (PushToAndroid_untouched req w) as (Hq & Hc & Ha & Ht & Hs & He).
  destruct (PushToIOS_untouched req w) as (Hq' & Hg' & Ht' & Hs' & He').
  done.
Qed.

(** X22. The worker takes notifications off the queue oldest first, one
    per round, and nothing it dispatches to puts any back: when a run of
    some rounds returns, the queue has lost exactly its first
    notifications, as many as there were rounds (all of them when there
    were fewer). *)
Theorem startWorker_consumes_in_order (rounds : nat) (w : World) :
  result (startWorker rounds w) = Returns tt →
  QueueNotification (final (startWorker rounds w)) = drop rounds (QueueNotification w).
Proof.
  revert w. induction rounds as [|rounds IH]; intros w Hret; [done|].
  cbn [startWorker] in *. unfold mbind, go_bind, receive in *.
  destruct (QueueNotification w) as [|n rest] eqn:Hqueue; cbn beta iota in *.
  { unfold final. simpl. by rewrite Hqueue. }
  set (w1 := set_QueueNotification rest w) in *.
  pose proof (dispatch_queue n w1) as Hq.
  unfold result, final in *.
  destruct (dispatch n w1) as [[[]|r] w2]; simpl in *; [|done].
  rewrite (IH w2 Hret), Hq. done.
Qed.

(** X23. A notification whose platform is neither iOS nor Android and
    whose application is configured is accepted and never dispatched:
    [queueNotification] queues it and adds its tokens to the accepted
    total, and the worker that receives it drops it, calling no network,
    writing no log and moving no counter. *)
Theorem unknown_platform_is_counted_and_dropped (n : PushNotification) (w : World) :
  appKnown PushConf n = true →
  Platform n ≠ PlatFormIos → Platform n ≠ PlatFormAndroid →
  QueueNotification w = [] →
  let queued := final (queueNotification (mkRequestPush [n]) w) in
  QueueNotification queued = [resolved n]
  ∧ TotalCount (StatStorage queued) = TotalCount (StatStorage w) + len (Tokens n)
  ∧ startWorker 1 queued = (Returns tt, set_QueueNotification [] queued).
Proof.
  intros Hk Hios Handroid Hempty queued.
  assert (Hadm : admitted PushConf n = true).
  { unfold appKnown in Hk. unfold admitted.
    destruct (Apps PushConf !! AppID (resolved n)); [|done].
    apply Z.eqb_neq in Hios, Handroid. by rewrite Hios, Handroid. }
  assert (Hqueue : QueueNotification queued = [resolved n]).
  { subst queued. rewrite queueNotification_final, queueLoop_final. simpl.
    rewrite Hempty, filter_cons, Hadm, decide_True by done. done. }
  split; [exact Hqueue|]. split.
  - subst queued. rewrite queueNotification_final. simpl.
    rewrite tokenTotal_cons, Hadm. unfold tokenTotal. simpl. lia.
  - cbn [startWorker]. unfold mbind, go_bind, receive. rewrite Hqueue. cbn beta iota.
    unfold dispatch. rewrite Platform_resolved.
    apply Z.eqb_neq in Hios, Handroid. rewrite Hios, Handroid. reflexivity.
Qed.

End WorkerMore.

Lemma registry_stays_consistent_witness :
  registryConsistent (@PushConf envDelivering)
    (final (startWorker (env := envDelivering) 2
              (final (queueNotification (env := envDelivering)
                        (mkRequestPush [notice ["a"] PlatFormIos "hello" "default"])
                        readyWorld)))).
Proof.
  destruct (registry_stays_consistent (env := envDelivering) readyWorld
              (registryConsistent_ready _)) as (_ & _ & _ & Hqueue & _).
  destruct (registry_stays_consistent (env := envDelivering) _
              (Hqueue (mkRequestPush [notice ["a"] PlatFormIos "hello" "default"])))
    as (_ & _ & _ & _ & Hworker).
  apply Hworker.
Defined.

Lemma startWorker_consumes_in_order_witness :
  QueueNotification
    (final (startWorker (env := envAndroid) 1
              (final (queueNotification (env := envAndroid)
                        (mkRequestPush [notice ["a"] PlatFormAndroid "hello" "default";
                                        notice ["b"] PlatFormAndroid "hello" "default"])
                        readyWorld))))
  = [notice ["b"] PlatFormAndroid "hello" "default"].
Proof.
  rewrite (startWorker_consumes_in_order (env := envAndroid)); reflexivity.
Defined.

Lemma unknown_platform_is_counted_and_dropped_witness :
  let queued := final (queueNotification (env := envDisabled)
                         (mkRequestPush [notice ["a"; "b"] 3 "hello" ""]) readyWorld) in
  TotalCount (StatStorage queued) = 2
  ∧ startWorker (env := envDisabled) 1 queued
    = (Returns tt, set_QueueNotification [] queued).
Proof.
  destruct (unknown_platform_is_counted_and_dropped (env := envDisabled)
              (notice ["a"; "b"] 3 "hello" "") readyWorld)
    as (_ & Htotal & Hworker); try reflexivity; try discriminate.
  split; [exact Htotal | exact Hworker].
Defined.

(** ** The payload builders, in full *)

Lemma copy_of_map (m : D) :
  map_fold (fun k v (acc : D) => <[k := v]> acc) ∅ m = m.
Proof.
  apply (map_fold_weak_ind (fun (r : D) (m : D) => r = m)); [done|].
  intros k v m' r _ ->. done.
Qed.

Lemma custom_of_map (p : Payload) (m : D) :
  map_fold payload_Custom p m
  = mkPayload (apsAlert p) (apsBadge p) (apsCategory p) (apsContentAvailable p)
              (apsURLArgs p) (apsSound p) (map_fold (fun k v (acc : D) => <[k := v]> acc)
                                                     (customData p) m).
Proof.
  apply (map_fold_weak_ind
           (fun (r : Payload) (m : D) =>
              r = mkPayload (apsAlert p) (apsBadge p) (apsCategory p)
                    (apsContentAvailable p) (apsURLArgs p) (apsSound p)
                    (map_fold (fun k v (acc : D) => <[k := v]> acc) (customData p) m))).
  - rewrite map_fold_empty. by destruct p.
  - intros k v m' r Hk ->.
    rewrite (map_fold_insert_L (fun k v (acc : D) => <[k := v]> acc)); [done| |done].
    intros j1 j2 z1 z2 y Hne _ _. by apply insert_insert_ne.
Qed.

(** X24. The batch message carries the request's tokens as its
    registration IDs; its priority is "high" exactly when the request
    asks for "high" and is left empty for any other word; and its data
    is absent when the request has none and otherwise is a copy equal to
    the request's data. *)
Theorem GetAndroidNotification_ids_priority_data (req : PushNotification) :
  mRegistrationIds (GetAndroidNotification req) = Tokens req
  ∧ mPriority (GetAndroidNotification req)
    = (if decide (Priority req = "high") then "high" else "")
  ∧ mData (GetAndroidNotification req)
    = (if decide (Data req = ∅) then None else Some (Data req)).
Proof.
  unfold GetAndroidNotification. simpl. split; [done|]. split.
  - destruct (decide (Priority req = "high")) as [->|Hp]; [done|].
    apply String.eqb_neq in Hp. rewrite Hp, andb_false_r. done.
  - rewrite copy_of_map.
    destruct (decide (Data req = ∅)) as [->|Hd]; [done|].
    apply map_size_non_empty_iff in Hd.
    destruct (size (Data req)); [done|]. done.
Qed.

Lemma slen_pos_decide (s : string) : (0 <? slen s) = bool_decide (s ≠ "").
Proof. destruct s; done. Qed.

Lemma len_pos_decide {A : Type} `{EqDecision A} (l : list A) :
  (0 <? len l) = bool_decide (l ≠ []).
Proof. destruct l; done. Qed.

(** The alert entries leave the other entries of the payload alone. *)
Lemma iosAlertDictionary_aps (p : Payload) (req : PushNotification) :
  let q := iosAlertDictionary p req in
  apsBadge q = apsBadge p ∧ apsContentAvailable q = apsContentAvailable p ∧
  apsURLArgs q = apsURLArgs p ∧ apsSound q = apsSound p ∧
  customData q = customData p ∧
  apsCategory q = (if 0 <? slen (Category req) then Some (Category req)
                   else apsCategory p).
Proof.
  unfold iosAlertDictionary.
  repeat match goal with
         | |- context [if ?b then _ else _] => destruct b
         end; simpl; done.
Qed.

(** X25. Field presence in the iOS payload: the badge is present exactly
    when the request's badge is positive, the sound, the category and
    the URL arguments exactly when the request's are not empty, the
    content-available flag exactly when the request sets it, each with
    the request's value; and the custom entries are the request's data.
    (A custom key named aps is outside the payload model.) *)
Theorem GetIOSNotification_field_presence (req : PushNotification) :
  Data req !! "aps" = None →
  ∃ p, nPayload (GetIOSNotification req) = Some p
    ∧ apsBadge p = (if decide (0 < Badge req) then Some (Badge req) else None)
    ∧ apsSound p = (if decide (Sound req = "") then None else Some (Sound req))
    ∧ apsCategory p = (if decide (Category req = "") then None else Some (Category req))
    ∧ apsURLArgs p = (if decide (URLArgs req = []) then None else Some (URLArgs req))
    ∧ apsContentAvailable p = ContentAvailable req
    ∧ customData p = Data req.
Proof.
  intros _. unfold GetIOSNotification. cbv zeta. eexists. split; [reflexivity|].
  match goal with
  | |- context [iosAlertDictionary ?p req] =>
      destruct (iosAlertDictionary_aps p req) as (Hb & Hc & Hu & Hs & Hd & Hcat)
  end.
  rewrite Hb, Hc, Hu, Hs, Hd, Hcat. clear Hb Hc Hu Hs Hd Hcat.
  rewrite !slen_pos_decide, len_pos_decide.
  destruct (decide (0 < Badge req)) as [Hbadge|Hbadge];
    [apply Z.ltb_lt in Hbadge as Hb | apply Z.ltb_nlt in Hbadge as Hb]; rewrite Hb;
    destruct (decide (Sound req = "")) as [Hsound|Hsound];
    [rewrite (bool_decide_eq_false_2 (Sound req ≠ "")) by (intros E; done)
    |rewrite (bool_decide_eq_true_2 (Sound req ≠ "")) by done
    |rewrite (bool_decide_eq_false_2 (Sound req ≠ "")) by (intros E; done)
    |rewrite (bool_decide_eq_true_2 (Sound req ≠ "")) by done];
    destruct (decide (URLArgs req = [])) as [Hargs|Hargs];
    try rewrite (bool_decide_eq_false_2 (URLArgs req ≠ [])) by (intros E; done);
    try rewrite (bool_decide_eq_true_2 (URLArgs req ≠ [])) by done;
    destruct (decide (Category req = "")) as [Hcat|Hcat];
    try rewrite (bool_decide_eq_false_2 (Category req ≠ "")) by (intros E; done);
    try rewrite (bool_decide_eq_true_2 (Category req ≠ "")) by done;
    destruct (ContentAvailable req);
    rewrite !custom_of_map; simpl; rewrite copy_of_map; done.
Qed.

Lemma GetIOSNotification_field_presence_witness :
  ∃ p, nPayload (GetIOSNotification richNotice) = Some p
    ∧ apsBadge p = Some 3
    ∧ apsSound p = Some "ping.aiff"
    ∧ apsCategory p = Some "MESSAGE"
    ∧ apsURLArgs p = Some ["u1"]
    ∧ apsContentAvailable p = true
    ∧ customData p = <["campaign" := VStr "spring"]> ∅.
Proof. apply (GetIOSNotification_field_presence richNotice). reflexivity. Defined.

(** On a payload whose alert is a plain string, the alert entries either
    leave it, when the request sets none of them, or replace it by the
    dictionary the request asks for. *)
Lemma iosAlertDictionary_alert (p : Payload) (req : PushNotification) (s : string) :
  apsAlert p = AlertString s →
  apsAlert (iosAlertDictionary p req)
  = (if wantsAlertDictionary req then AlertDictionary (requestedAlert req)
     else AlertString s).
Proof.
  intros Hp. unfold iosAlertDictionary, wantsAlertDictionary, requestedAlert.
  destruct req as [? ? ? title ? ? ? ? ? ? ? ? ? ? ? ? ? ? ? ? ? category ? alert].
  destruct alert as [action actionLocKey body launchImage locArgs locKey ? titleLocArgs
                       titleLocKey].
  destruct p as [a ? ? ? ? ? ?]. simpl in Hp. subst a. cbn [Title AlertField Category
    Action ActionLocKey Body LaunchImage LocArgs LocKey TitleLocArgs TitleLocKey].
  destruct (0 <? slen category);
    destruct title, titleLocKey, locArgs, titleLocArgs, body, launchImage, locKey,
      action, actionLocKey; reflexivity.
Qed.

(** X26. The alert of the iOS payload is the message, as a plain string,
    exactly when the request sets no entry of the alert dictionary (no
    title and no alert field); as soon as it sets one, the alert is the
    dictionary made of the request's title and alert fields, and the
    message is not part of the payload. (A custom key named aps is
    outside the payload model.) *)
Theorem GetIOSNotification_alert (req : PushNotification) :
  Data req !! "aps" = None →
  ∃ p, nPayload (GetIOSNotification req) = Some p
    ∧ apsAlert p = (if wantsAlertDictionary req then AlertDictionary (requestedAlert req)
                    else AlertString (Message req)).
Proof.
  intros _. unfold GetIOSNotification. cbv zeta. eexists. split; [reflexivity|].
  apply iosAlertDictionary_alert. rewrite custom_of_map. simpl.
  repeat match goal with |- context [if ?b then _ else _] => destruct b end; done.
Qed.

Lemma GetIOSNotification_alert_witness :
  ∃ p, nPayload (GetIOSNotification richNotice) = Some p
    ∧ apsAlert p = AlertDictionary (mkAlertDict "" "" "Body text" "" [] "" "Greeting" [] "").
Proof. apply (GetIOSNotification_alert richNotice). reflexivity. Defined.

(** ** The command line *)

(** X27. The notification [main] builds from the token and message flags
    passes the validator exactly when [checkInput] would let the two
    flags through, that is when neither is empty, for the Android and
    for the iOS request alike. *)
Theorem cli_request_valid_iff_input_ok (flags : Flags) (w : World) :
  (checkInput (token flags) (message flags) = None
   ↔ token flags ≠ "" ∧ message flags ≠ "")
  ∧ (result (CheckMessage (cliAndroidRequest flags) w) = Returns None
     ↔ checkInput (token flags) (message flags) = None)
  ∧ (result (CheckMessage (cliIosRequest flags) w) = Returns None
     ↔ checkInput (token flags) (message flags) = None).
Proof.
  assert (Hin : checkInput (token flags) (message flags) = None
                ↔ token flags ≠ "" ∧ message flags ≠ "").
  { unfold checkInput.
    destruct (slen (token flags) =? 0) eqn:Ht.
    { apply slen_zero in Ht. split; [done | intros [? _]; done]. }
    destruct (slen (message flags) =? 0) eqn:Hm.
    { apply slen_zero in Hm. split; [done | intros [_ ?]; done]. }
    split; [|done]. intros _. split; intros E; rewrite E in *; done. }
  split; [exact Hin|].
  rewrite !CheckMessage_accepts, Hin.
  unfold validRequest, cliAndroidRequest, cliIosRequest, ttlAcceptable. simpl.
  assert (Hone : [token flags] ≠ [""] ↔ token flags ≠ "").
  { split; intros H E; apply H; [by rewrite E | by injection E]. }
  assert (Hlen : len [token flags] <= 1000) by (unfold len; simpl; lia).
  rewrite Hone. split; split.
  - intros (Hm & _ & Ht & _). done.
  - intros (Ht & Hm). repeat split; done.
  - intros (Hm & _ & Ht & _). done.
  - intros (Ht & Hm). repeat split; done.
Qed.

Lemma dynamicApp_zero (flags : Flags) (conf : ConfYaml) :
  Apps (fst (dynamicApp flags conf)) !! AppNameDynamic = Some zeroSectionApp
  ∧ ∀ id, id ≠ AppNameDynamic →
          Apps (fst (dynamicApp flags conf)) !! id = Apps conf !! id.
Proof.
  unfold dynamicApp. cbn [fst Apps]. split; [apply lookup_insert_eq|].
  intros id Hne. by rewrite lookup_insert_ne.
Qed.

(** X28. The dynamic application [main] creates from the flags: the
    local copy takes every flag, but the entry stored in the
    configuration stays the zero application, whatever the flags, and
    the entries of the other applications are kept. *)
Theorem dynamicApp_entry_stays_zero (flags : Flags) (conf : ConfYaml) :
  let conf' := fst (dynamicApp flags conf) in
  let dynamicAppConfig := snd (dynamicApp flags conf) in
  Apps conf' !! AppNameDynamic = Some zeroSectionApp
  ∧ (∀ id, id ≠ AppNameDynamic → Apps conf' !! id = Apps conf !! id)
  ∧ dynamicAppConfig
    = mkSectionApp
        (mkSectionIos (iosEnabled flags) (iosKeyPath flags) (iosPassword flags)
                      (iosProduction flags))
        (mkSectionAndroid (androidEnabled flags) (androidAPIKey flags)).
Proof.
  cbv zeta. unfold dynamicApp. cbn [fst snd Apps].
  split; [apply lookup_insert_eq|]. split.
  { intros id Hne. by rewrite lookup_insert_ne. }
  unfold app. cbn [Apps]. rewrite lookup_insert_eq. cbn [default from_option].
  destruct flags as [? ? ? keyPath password en prod apiKey aen]. simpl.
  destruct keyPath, password, en, prod, apiKey, aen; reflexivity.
Qed.

Section CommandLine.

Context {env : Environment}.

(** X29. The certificate flags never reach the iOS dispatcher: when the
    configuration is the one [main] leaves behind, an iOS push of the
    command-line notification through an allocated registry finds iOS
    disabled for the dynamic application and gets a nil client with no
    error; it does not take its error branch, and its one [Push], for
    the token of the flags, is made on that nil client and panics with
    a nil-pointer dereference: nothing is sent, logged or counted. *)
Theorem cli_ios_push_has_no_client (flags : Flags) (conf : ConfYaml) (w : World) :
  PushConf = fst (dynamicApp flags conf) →
  registryConsistent PushConf w →
  result (GetAPNSClient AppNameDynamic w) = Returns (None, None)
  ∧ result (PushToIOS (cliIosRequest flags) w)
    = Panics "invalid memory address or nil pointer dereference"
  ∧ apnsCalls (final (PushToIOS (cliIosRequest flags) w)) = apnsCalls w
  ∧ pushLog (final (PushToIOS (cliIosRequest flags) w)) = pushLog w
  ∧ StatStorage (final (PushToIOS (cliIosRequest flags) w)) = StatStorage w.
Proof.
  intros Hconf Hreg.
  destruct (dynamicApp_zero flags conf) as [Hzero _].
  assert (Hoff : IosEnabled (Ios (app PushConf AppNameDynamic)) = false).
  { unfold app. rewrite Hconf, Hzero. reflexivity. }
  destruct (GetAPNSClient_disabled AppNameDynamic w Hreg Hoff) as [Hget _].
  split; [exact Hget|].
  set (w0 := set_accessLog (accessLog w ++ ["Start push notification for iOS"]) w).
  assert (Hreg0 : registryConsistent PushConf w0).
  { destruct Hreg as (m & Hm & Hen). exists m. done. }
  destruct (GetAPNSClient_disabled AppNameDynamic w0 Hreg0 Hoff) as [Hget0 Hcalls].
  destruct (GetAPNSClient_disabled_frame AppNameDynamic w0 Hreg0 Hoff) as [Hlog Hstat].
  rewrite (PushToIOS_dispatch (cliIosRequest flags) w None Hget0). fold w0.
  rewrite pushTokens_nil_client. change (AppID (cliIosRequest flags)) with AppNameDynamic.
  unfold result, final in *. simpl. rewrite Hcalls, Hlog, Hstat. done.
Qed.

(** X30. The API key flag never reaches the Android dispatcher: a push of
    the command-line notification with a token and a message calls the
    network once, and with an empty API key, whatever the flags and the
    configuration hold. *)
Theorem cli_android_push_has_no_key (flags : Flags) (w : World) :
  token flags ≠ "" → message flags ≠ "" →
  gcmCalls (final (PushToAndroid (cliAndroidRequest flags) w))
  = (gcmCalls w ++ [("", GetAndroidNotification (cliAndroidRequest flags))])%list.
Proof.
  intros Ht Hm. rewrite PushToAndroid_calls.
  assert (Hv : result (CheckMessage (cliAndroidRequest flags) w) = Returns None).
  { apply CheckMessage_accepts. unfold validRequest, cliAndroidRequest, ttlAcceptable.
    simpl. repeat split; try done; try (intros E; injection E as E; done);
      try (unfold len; simpl; lia). }
  rewrite Hv. reflexivity.
Qed.

End CommandLine.

Lemma cli_ios_push_has_no_client_witness :
  result (GetAPNSClient (env := envCommandLine) AppNameDynamic readyWorld)
    = Returns (None, None)
  ∧ result (PushToIOS (env := envCommandLine) (cliIosRequest flagsIos) readyWorld)
    = Panics "invalid memory address or nil pointer dereference".
Proof.
  destruct (cli_ios_push_has_no_client (env := envCommandLine) flagsIos
              (@PushConf envDelivering) readyWorld) as (Hget & Hpush & _).
  - reflexivity.
  - apply registryConsistent_ready.
  - split; [exact Hget | exact Hpush].
Defined.

Lemma cli_android_push_has_no_key_witness :
  gcmCalls (final (PushToAndroid (env := envAndroid) (cliAndroidRequest flagsAndroid)
                     readyWorld))
  = [("", GetAndroidNotification (cliAndroidRequest flagsAndroid))].
Proof.
  apply (cli_android_push_has_no_key (env := envAndroid) flagsAndroid readyWorld);
    discriminate.
Defined.
